(** * MainDialog of the multi-turn prompts bot

    A shallow embedding of [dialogs/mainDialog/index.js]: the two waterfall
    dialogs ([who_are_you], [hello_user]), the age validator and the turn
    handler [onTurn], run on a small model of the dialog stack, the prompts
    and the two state stores the bot is given by its host framework. *)

From Stdlib Require Import ZArith String Ascii List Bool Lia QArith Qcanon.
From stdpp Require Import base strings list pretty.
Import ListNotations.

Local Open Scope string_scope.
Local Open Scope list_scope.

(** ** JavaScript values *)

(** The values that flow through the dialog steps: [step.result], the fields
    of the user profile, the entries of a found choice.  A number is a
    rational in lowest terms: every finite number of the language is one,
    a fraction such as -0.5 or 34.5 as well as an integer. *)
Inductive jsval : Type :=
| JUndefined
| JNull
| JBool (b : bool)
| JNum (n : Qc)
| JStr (s : string)
| JObj (fields : jsfields)
with jsfields : Type :=
| FNil
| FCons (k : string) (v : jsval) (rest : jsfields).

(** The number literal of an integer: [0], [34], [-1]. *)
Definition numZ (n : Z) : Qc := Q2Qc (inject_Z n).

(** [x < 0] and [x === y] on numbers. *)
Definition ltZero (x : Qc) : bool :=
  match (x ?= numZ 0)%Qc with Lt => true | _ => false end.

Definition numEq (x y : Qc) : bool := Qc_eq_bool x y.

(** [if (v)]: the falsy values are undefined, null, false, 0 and ''. *)
Definition truthy (v : jsval) : bool :=
  match v with
  | JUndefined | JNull => false
  | JBool b => b
  | JNum n => negb (numEq n (numZ 0))
  | JStr s => negb (s =? "")
  | JObj _ => true
  end.

(** [v === lit] where [lit] is a primitive literal ('yes', -1, 'Bot'); an
    object is never strictly equal to a primitive. *)
Definition strictEquals (v lit : jsval) : bool :=
  match v, lit with
  | JUndefined, JUndefined => true
  | JNull, JNull => true
  | JBool a, JBool b => Bool.eqb a b
  | JNum a, JNum b => numEq a b
  | JStr a, JStr b => (a =? b)
  | _, _ => false
  end.

Fixpoint lookupField (k : string) (fields : jsfields) : option jsval :=
  match fields with
  | FNil => None
  | FCons k' v rest => if (k' =? k) then Some v else lookupField k rest
  end.

(** The integers that the language prints digit by digit whatever their
    size: those up to [Number.MAX_SAFE_INTEGER] in absolute value. *)
Definition safeInteger (x : Qc) : option Z :=
  if (Pos.eqb (Qden x) 1 && (Z.abs (Qnum x) <=? 9007199254740991)%Z)%bool
  then Some (Qnum x) else None.

(** ** Text normalisation: [.trim().toLowerCase()]

    A text is held as the bytes of its UTF-8 encoding. *)

(** The number of bytes of the character that the byte [c] starts. *)
Definition charWidth (c : ascii) : nat :=
  let n := nat_of_ascii c in
  if (n <? 192)%nat then 1%nat
  else if (n <? 224)%nat then 2%nat
  else if (n <? 240)%nat then 3%nat
  else if (n <? 248)%nat then 4%nat
  else 1%nat.

(** The characters of a text, each with the bytes that encode it. *)
Fixpoint chars (s : string) : list string :=
  match s with
  | EmptyString => []
  | String c1 r1 =>
      match charWidth c1, r1 with
      | S (S w), String c2 r2 =>
          match w, r2 with
          | S w', String c3 r3 =>
              match w', r3 with
              | S _, String c4 r4 =>
                  String c1 (String c2 (String c3 (String c4 EmptyString))) :: chars r4
              | _, _ => String c1 (String c2 (String c3 EmptyString)) :: chars r3
              end
          | _, _ => String c1 (String c2 EmptyString) :: chars r2
          end
      | _, _ => String c1 EmptyString :: chars r1
      end
  end.

(** The code point a character encodes, when its bytes are well formed. *)
Definition codePoint (ch : string) : option N :=
  let low (c : ascii) := (N_of_ascii c mod 64)%N in
  match ch with
  | String c1 EmptyString =>
      if (N_of_ascii c1 <? 128)%N then Some (N_of_ascii c1) else None
  | String c1 (String c2 EmptyString) =>
      let cp := ((N_of_ascii c1 mod 32) * 64 + low c2)%N in
      if (128 <=? cp)%N then Some cp else None
  | String c1 (String c2 (String c3 EmptyString)) =>
      let cp := ((N_of_ascii c1 mod 16) * 4096 + low c2 * 64 + low c3)%N in
      if (2048 <=? cp)%N then Some cp else None
  | String c1 (String c2 (String c3 (String c4 EmptyString))) =>
      let cp := ((N_of_ascii c1 mod 8) * 262144 + low c2 * 4096 + low c3 * 64 + low c4)%N in
      if (65536 <=? cp)%N then Some cp else None
  | _ => None
  end.

(** The white space and line terminators that [trim] strips: tab to
    carriage return, space, U+00A0, U+1680, U+2000 to U+200A, U+2028,
    U+2029, U+202F, U+205F, U+3000 and U+FEFF. *)
Definition isWhiteSpace (cp : N) : bool :=
  ((9 <=? cp) && (cp <=? 13) || (cp =? 32) || (cp =? 160) || (cp =? 5760)
   || (8192 <=? cp) && (cp <=? 8202) || (cp =? 8232) || (cp =? 8233)
   || (cp =? 8239) || (cp =? 8287) || (cp =? 12288) || (cp =? 65279))%N%bool.

Definition isWhiteSpaceChar (ch : string) : bool :=
  match codePoint ch with
  | Some cp => isWhiteSpace cp
  | None => false
  end.

Fixpoint dropWhiteSpace (l : list string) : list string :=
  match l with
  | [] => []
  | ch :: rest => if isWhiteSpaceChar ch then dropWhiteSpace rest else l
  end.

Definition trimStart (s : string) : string :=
  String.concat "" (dropWhiteSpace (chars s)).

Definition trimEnd (s : string) : string :=
  String.concat "" (rev (dropWhiteSpace (rev (chars s)))).

Definition trim (s : string) : string :=
  String.concat "" (rev (dropWhiteSpace (rev (dropWhiteSpace (chars s))))).

(** Letters beyond ASCII are left as they are: none of them has a letter
    of "cancel" for its lower case, so that the comparison of the result
    with 'cancel' is the code's. *)
Definition lowerChar (c : ascii) : ascii :=
  let n := nat_of_ascii c in
  if (65 <=? n)%nat && (n <=? 90)%nat then ascii_of_nat (n + 32) else c.

Fixpoint toLowerCase (s : string) : string :=
  match s with
  | EmptyString => EmptyString
  | String c r => String (lowerChar c) (toLowerCase r)
  end.

(** ** Data model *)

(** The user profile kept in [UserState] under the property 'user'.  A field
    is [None] while the object has no such property. *)
Record profile : Type := Profile { name : option jsval; age : option jsval }.

Definition emptyProfile : profile := Profile None None.

(** [user.name], [user.age]: reading a missing property gives undefined. *)
Definition readField (f : option jsval) : jsval := default JUndefined f.

Record ChannelAccount : Type := { account_name : option string }.

(** The inbound activity: [type], [text], [membersAdded]. *)
Record Activity : Type := {
  activity_type : string;
  text : option string;
  membersAdded : option (list ChannelAccount)
}.

Definition ActivityTypes_ConversationUpdate : string := "conversationUpdate".

Definition message (s : string) : Activity :=
  {| activity_type := "message"; text := Some s; membersAdded := None |}.

Definition DIALOG_STATE_PROPERTY : string := "dialogState".
Definition USER_PROFILE_PROPERTY : string := "user".

(** The dialogs registered in the [DialogSet] by the constructor. *)
Inductive prompt_id : Type := NAME_PROMPT | CONFIRM_PROMPT | AGE_PROMPT.
Inductive flow_id : Type := WHO_ARE_YOU | HELLO_USER.

Definition promptName (p : prompt_id) : string :=
  match p with
  | NAME_PROMPT => "name_prompt"
  | CONFIRM_PROMPT => "confirm_prompt"
  | AGE_PROMPT => "age_prompt"
  end.

Definition flowName (f : flow_id) : string :=
  match f with
  | WHO_ARE_YOU => "who_are_you"
  | HELLO_USER => "hello_user"
  end.

(** What [dc.prompt(id, prompt, choicesOrOptions)] records for a prompt. *)
Record PromptOptions : Type := {
  prompt : string;
  retryPrompt : option string;
  choices : list string
}.

(** An entry of the dialog stack: a waterfall with the index of the step it
    ran last, or a prompt waiting for its reply. *)
Inductive instance : Type :=
| WaterfallInst (f : flow_id) (stepIndex : nat)
| PromptInst (p : prompt_id) (o : PromptOptions).

(** What a turn does, in order. *)
Inductive event : Type :=
| Sent (msg : string)
| SentChoices (msg : string) (cs : list string)
| ProfileRead
| ProfileWritten (p : profile)
| Begun (f : flow_id)
| Prompted (p : prompt_id) (o : PromptOptions)
| Stepped (f : flow_id) (index : nat) (result : jsval)
| Continued (d : instance)
| Ended (result : jsval)
| CancelledAll
| SavedUser
| SavedConversation.

(** The two stores as they are between turns. *)
Record storage : Type := {
  stored_user : option profile;
  stored_dialogs : list instance
}.

(** The state of one turn: the turn context ([activity], [responded]), the
    values loaded from the two stores, the trace, and the stores. *)
Record turn : Type := Turn {
  activity : Activity;
  responded : bool;
  user : option profile;
  dialogStack : list instance;
  log : list event;
  store : storage
}.

Definition newTurn (s : storage) (a : Activity) : turn :=
  Turn a false (stored_user s) (stored_dialogs s) [] s.

(** ** The monad of a turn: state, and a thrown error *)

Inductive error : Type := TypeError.

Inductive outcome (A : Type) : Type :=
| Ok (a : A) (t : turn)
| Throw (e : error) (t : turn).
Arguments Ok {A} a t.
Arguments Throw {A} e t.

Definition M (A : Type) : Type := turn -> outcome A.

Definition ret {A} (a : A) : M A := fun t => Ok a t.

Definition bind {A B} (m : M A) (k : A -> M B) : M B :=
  fun t => match m t with
           | Ok a t' => k a t'
           | Throw e t' => Throw e t'
           end.

Definition throw {A} (e : error) : M A := fun t => Throw e t.

Declare Scope turn_scope.
Delimit Scope turn_scope with turn.
Notation "'let*' x := m 'in' k" := (bind m (fun x => k))
  (at level 10, x name, m at level 99, k at level 200) : turn_scope.
Notation "'await' m ;; k" := (bind m (fun _ => k))
  (at level 10, m at level 99, k at level 200) : turn_scope.
Local Open Scope turn_scope.

Definition finalTurn {A} (r : outcome A) : turn :=
  match r with Ok _ t => t | Throw _ t => t end.

Definition getActivity : M Activity := fun t => Ok (activity t) t.
Definition getResponded : M bool := fun t => Ok (responded t) t.
Definition getStack : M (list instance) := fun t => Ok (dialogStack t) t.

Definition setStack (stk : list instance) : M unit :=
  fun t => Ok tt (Turn (activity t) (responded t) (user t) stk (log t) (store t)).

Definition logEvent (e : event) : M unit :=
  fun t => Ok tt (Turn (activity t) (responded t) (user t) (dialogStack t)
                       (log t ++ [e]) (store t)).

(** Modelled from the spec: [context.sendActivity(text)] of the host
    framework, which is not part of this repository: the text goes out and
    the turn has responded. *)
Definition sendActivity (msg : string) : M unit :=
  fun t => Ok tt (Turn (activity t) true (user t) (dialogStack t)
                       (log t ++ [Sent msg]) (store t)).

Definition sendChoices (msg : string) (cs : list string) : M unit :=
  fun t => Ok tt (Turn (activity t) true (user t) (dialogStack t)
                       (log t ++ [SentChoices msg cs]) (store t)).

(** Modelled from the spec: [this.userProfile.get(dc.context, {})], the
    stored profile, or the empty record when there is none. *)
Definition userProfile_get : M profile :=
  fun t => Ok (default emptyProfile (user t))
              (Turn (activity t) (responded t) (user t) (dialogStack t)
                    (log t ++ [ProfileRead]) (store t)).

(** Modelled from the spec: [this.userProfile.set(dc.context, user)]. *)
Definition userProfile_set (p : profile) : M unit :=
  fun t => Ok tt (Turn (activity t) (responded t) (Some p) (dialogStack t)
                       (log t ++ [ProfileWritten p]) (store t)).

(** Modelled from the spec: [this.userState.saveChanges(turnContext)]
    flushes the user-scoped values of the turn to their store. *)
Definition userState_saveChanges : M unit :=
  fun t => Ok tt (Turn (activity t) (responded t) (user t) (dialogStack t)
                       (log t ++ [SavedUser])
                       {| stored_user := user t;
                          stored_dialogs := stored_dialogs (store t) |}).

(** Modelled from the spec: [this.conversationState.saveChanges(turnContext)]
    flushes the dialog stack of the turn to its store. *)
Definition conversationState_saveChanges : M unit :=
  fun t => Ok tt (Turn (activity t) (responded t) (user t) (dialogStack t)
                       (log t ++ [SavedConversation])
                       {| stored_user := stored_user (store t);
                          stored_dialogs := dialogStack t |}).

(** [v.k]: a property read; it throws on undefined and null. *)
Definition getProp (v : jsval) (k : string) : M jsval :=
  match v with
  | JUndefined | JNull => throw TypeError
  | JObj fields => ret (default JUndefined (lookupField k fields))
  | _ => ret JUndefined
  end.

Section Runtime.

(** How the language prints a number that is not a safe integer (a
    fraction, a large number in exponent form): the conversion belongs to
    the language and is left open. *)
Variable numberToString : Qc -> string.

(** [`${ v }`] inside a template literal. *)
Definition toString (v : jsval) : string :=
  match v with
  | JUndefined => "undefined"
  | JNull => "null"
  | JBool true => "true"
  | JBool false => "false"
  | JNum n => match safeInteger n with
              | Some z => pretty z
              | None => numberToString n
              end
  | JStr s => s
  | JObj _ => "[object Object]"
  end.

(** ** The dialog library, as the bot uses it *)

(** The dialog context a step is handed: [dc.end(result)] pops the dialog and
    resumes the one below it. *)
Record DialogContext : Type := { dc_end : jsval -> M unit }.

(** The step context: [step.result] and [step.next(result)]. *)
Record StepContext : Type := { result : jsval; next : jsval -> M unit }.

Definition WaterfallStep : Type := DialogContext -> StepContext -> M unit.

(** The three prompt classes; a number prompt carries its validator, which
    is given [step.recognized.value], the recognised number or undefined,
    and answers [Some v] when it called [step.end(v)]. *)
Inductive Prompt : Type :=
| TextPrompt
| ChoicePrompt
| NumberPrompt (validator : option Qc -> M (option jsval)).

(** The validator given to [new NumberPrompt(AGE_PROMPT, ...)].  On
    undefined the comparison [undefined < 0] is false, and the prompt is
    ended with undefined. *)
Definition ageValidator (value : option Qc) : M (option jsval) :=
  if (match value with Some x => ltZero x | None => false end) then
    await sendActivity "Your age can't be less than zero." ;;
    ret None
  else
    ret (Some (match value with Some x => JNum x | None => JUndefined end)).

(** [this.dialogs.add(new TextPrompt(NAME_PROMPT))] and the two after it. *)
Definition prompts (p : prompt_id) : Prompt :=
  match p with
  | NAME_PROMPT => TextPrompt
  | CONFIRM_PROMPT => ChoicePrompt
  | AGE_PROMPT => NumberPrompt ageValidator
  end.

(** Modelled from the spec: how a prompt of the dialog library asks its
    question; the library is not part of this repository.  A retry sends the
    retry message when there is one, the question otherwise; a choice prompt
    sends its choices along. *)
Definition onPrompt (p : prompt_id) (o : PromptOptions) (isRetry : bool) : M unit :=
  let msg := match isRetry, retryPrompt o with
             | true, Some r => r
             | _, _ => prompt o
             end in
  match prompts p with
  | ChoicePrompt => sendChoices msg (choices o)
  | _ => sendActivity msg
  end.

(** Modelled from the spec: [dc.prompt(id, prompt, choicesOrOptions)] pushes
    the prompt on the dialog stack and asks its question. *)
Definition dc_prompt (p : prompt_id) (o : PromptOptions) : M unit :=
  let* stk := getStack in
  await logEvent (Prompted p o) ;;
  await setStack (PromptInst p o :: stk) ;;
  onPrompt p o false.

(** Modelled from the spec: [dc.cancelAll()] clears the dialog stack. *)
Definition dc_cancelAll : M unit :=
  await logEvent CancelledAll ;;
  setStack [].

(** *** The steps of the two waterfalls *)

(** This step in the dialog prompts the user for their name. *)
Definition promptForName (dc : DialogContext) (step : StepContext) : M unit :=
  dc_prompt NAME_PROMPT
    {| prompt := "What is your name, human?"; retryPrompt := None; choices := [] |}.

(** This step captures the user's name, then prompts whether or not to
    collect an age. *)
Definition confirmAgePrompt (dc : DialogContext) (step : StepContext) : M unit :=
  let* u := userProfile_get in
  let u := Profile (Some (result step)) (age u) in
  await userProfile_set u ;;
  dc_prompt CONFIRM_PROMPT
    {| prompt := "Do you want to give your age?"; retryPrompt := None;
       choices := ["yes"; "no"] |}.

(** This step checks the user's response: if yes, the bot will proceed to
    prompt for age; otherwise, the bot will skip the age step. *)
Definition promptForAge (dc : DialogContext) (step : StepContext) : M unit :=
  let* yes := (if truthy (result step) then
                 let* v := getProp (result step) "value" in
                 ret (strictEquals v (JStr "yes"))
               else ret false) in
  if yes then
    dc_prompt AGE_PROMPT
      {| prompt := "What is your age?";
         retryPrompt :=
           Some "Sorry, please specify your age as a positive number or say cancel.";
         choices := [] |}
  else
    next step (JNum (numZ (-1))).

(** This step captures the user's age. *)
Definition captureAge (dc : DialogContext) (step : StepContext) : M unit :=
  let* u := userProfile_get in
  await (if negb (strictEquals (result step) (JNum (numZ (-1)))) then
           let u := Profile (name u) (Some (result step)) in
           await userProfile_set u ;;
           sendActivity ("I will remember that you are " +:+ toString (result step)
                         +:+ " years old.")
         else
           sendActivity "No age given.") ;;
  dc_end dc JUndefined.

(** This step displays the captured information back to the user. *)
Definition displayProfile (dc : DialogContext) (step : StepContext) : M unit :=
  let* u := userProfile_get in
  await (if truthy (readField (age u)) then
           sendActivity ("Your name is " +:+ toString (readField (name u))
                         +:+ " and you are " +:+ toString (readField (age u))
                         +:+ " years old.")
         else
           sendActivity ("Your name is " +:+ toString (readField (name u))
                         +:+ " and you did not share your age.")) ;;
  dc_end dc JUndefined.

(** [new WaterfallDialog(WHO_ARE_YOU, [...])], [new WaterfallDialog(HELLO_USER, [...])] *)
Definition waterfalls (f : flow_id) : list WaterfallStep :=
  match f with
  | WHO_ARE_YOU => [promptForName; confirmAgePrompt; promptForAge; captureAge]
  | HELLO_USER => [displayProfile]
  end.

(** *** Running waterfalls and prompts on the stack *)

Definition setStepIndex (index : nat) : M unit :=
  let* stk := getStack in
  match stk with
  | WaterfallInst f _ :: parents => setStack (WaterfallInst f index :: parents)
  | _ => ret tt
  end.

(** Modelled from the spec: a waterfall runs its steps in order; a step is
    given the result of the one before it; [step.next(r)] runs the next step
    at once; after the last step the waterfall ends with the result. *)
Fixpoint runSteps (f : flow_id) (index : nat) (steps : list WaterfallStep)
    (dc : DialogContext) (r : jsval) : M unit :=
  match steps with
  | [] => dc_end dc r
  | s :: rest =>
      await setStepIndex index ;;
      await logEvent (Stepped f index r) ;;
      s dc {| result := r; next := runSteps f (S index) rest dc |}
  end.

Definition runStep (f : flow_id) (index : nat) (dc : DialogContext) (r : jsval) : M unit :=
  runSteps f index (drop index (waterfalls f)) dc r.

(** Modelled from the spec: [stk] is what is left of the dialog stack once
    the active dialog has been popped; the dialog on top of it is resumed
    with the result: a waterfall runs its next step, a prompt asks again. *)
Fixpoint resumeDialog (stk : list instance) (r : jsval) : M unit :=
  await setStack stk ;;
  match stk with
  | [] => ret tt
  | WaterfallInst f i :: parents =>
      runStep f (S i)
        {| dc_end := fun r' => await logEvent (Ended r') ;; resumeDialog parents r' |} r
  | PromptInst p o :: parents => onPrompt p o false
  end.

(** The dialog context of a dialog whose parents on the stack are [parents]. *)
Definition dialogContext (parents : list instance) : DialogContext :=
  {| dc_end := fun r => await logEvent (Ended r) ;; resumeDialog parents r |}.

(** Modelled from the spec: [dc.begin(flowId)] pushes the waterfall and runs
    its first step. *)
Definition dc_begin (f : flow_id) : M unit :=
  let* parents := getStack in
  await logEvent (Begun f) ;;
  await setStack (WaterfallInst f 0 :: parents) ;;
  runStep f 0 (dialogContext parents) JUndefined.

Section Recognizers.

(** What the prompt library recognises in a reply: a text, one of the
    choices (the found choice, an object with a [value]), a number.  The
    recognisers belong to the library and are left open. *)
Variable recognizeText : Activity -> option string.
Variable recognizeChoice : list string -> Activity -> option jsval.
Variable recognizeNumber : Activity -> option Qc.

(** Modelled from the spec: a pending prompt is given the reply.  What it
    recognises goes to the validator when it has one; the prompt ends with
    the accepted value, and otherwise asks again unless the turn has
    already responded. *)
Definition promptContinue (p : prompt_id) (o : PromptOptions) (dc : DialogContext) : M unit :=
  let* a := getActivity in
  let* ended :=
    match prompts p with
    | TextPrompt => ret (JStr <$> recognizeText a)
    | ChoicePrompt => ret (recognizeChoice (choices o) a)
    | NumberPrompt validator =>
        match recognizeNumber a with
        | Some value => validator (Some value)
        | None => ret None
        end
    end in
  match ended with
  | Some r => dc_end dc r
  | None =>
      let* r := getResponded in
      if r then ret tt else onPrompt p o true
  end.

(** Modelled from the spec: [dc.continue()] hands the activity of the turn
    to the active dialog, if there is one; a waterfall takes the text as the
    result of its pending step. *)
Definition dc_continue : M unit :=
  let* stk := getStack in
  match stk with
  | [] => ret tt
  | d :: parents =>
      await logEvent (Continued d) ;;
      match d with
      | PromptInst p o => promptContinue p o (dialogContext parents)
      | WaterfallInst f i =>
          let* a := getActivity in
          runStep f (S i) (dialogContext parents)
            (match text a with Some s => JStr s | None => JUndefined end)
      end
  end.

Definition description : list string :=
  [ "I am a bot that demonstrates the TextPrompt and NumberPrompt classes";
    "to collect your name and age, then store those values in UserState for later use.";
    "Say anything to continue." ].

(** [(turnContext.activity.text || '').trim().toLowerCase()] *)
Definition utterance (a : Activity) : string :=
  toLowerCase (trim (match text a with
                     | Some s => if (s =? "") then "" else s
                     | None => ""
                     end)).

(** [onTurn(turnContext)] *)
Definition onTurn : M unit :=
  let* a := getActivity in
  await (if (activity_type a =? "message") then
           await (if (utterance a =? "cancel") then
                    let* stk := getStack in
                    match stk with
                    | _ :: _ =>
                        await dc_cancelAll ;;
                        sendActivity "Ok... canceled."
                    | [] => sendActivity "Nothing to cancel."
                    end
                  else ret tt) ;;
           await dc_continue ;;
           let* r := getResponded in
           if negb r then
             let* u := userProfile_get in
             if truthy (readField (name u)) then dc_begin HELLO_USER
             else dc_begin WHO_ARE_YOU
           else ret tt
         else if (activity_type a =? ActivityTypes_ConversationUpdate) then
           let* m := match membersAdded a with
                     | Some (m :: _) => ret m
                     | _ => throw TypeError
                     end in
           if negb (strictEquals (match account_name m with
                                  | Some n => JStr n
                                  | None => JUndefined
                                  end) (JStr "Bot")) then
             sendActivity (String.concat " " description)
           else ret tt
         else ret tt) ;;
  await userState_saveChanges ;;
  conversationState_saveChanges.

(** What [onTurn] does with a message once the cancel check is behind it:
    it resumes the active dialog, begins a dialog if the turn has not
    responded, and saves the two stores. *)
Definition resumeOrBegin : M unit :=
  await (await dc_continue ;;
         let* r := getResponded in
         if negb r then
           let* u := userProfile_get in
           if truthy (readField (name u)) then dc_begin HELLO_USER
           else dc_begin WHO_ARE_YOU
         else ret tt) ;;
  await userState_saveChanges ;;
  conversationState_saveChanges.

(** ** Turns in sequence *)

(** One inbound activity: the stores are loaded, [onTurn] runs, and what it
    saved is what the next turn finds. *)
Definition processActivity (s : storage) (a : Activity) : outcome unit :=
  onTurn (newTurn s a).

Definition afterTurn (s : storage) (a : Activity) : storage :=
  store (finalTurn (processActivity s a)).

Fixpoint run (s : storage) (l : list Activity) : storage :=
  match l with
  | [] => s
  | a :: rest => run (afterTurn s a) rest
  end.

(** The traces of the turns of [run], one after the other. *)
Fixpoint runLog (s : storage) (l : list Activity) : list event :=
  match l with
  | [] => []
  | a :: rest => log (finalTurn (processActivity s a)) ++ runLog (afterTurn s a) rest
  end.

End Recognizers.

(** The texts sent in a trace. *)
Fixpoint sent (l : list event) : list string :=
  match l with
  | [] => []
  | Sent m :: rest => m :: sent rest
  | SentChoices m _ :: rest => m :: sent rest
  | _ :: rest => sent rest
  end.

Definition initialStorage (p : option profile) : storage :=
  {| stored_user := p; stored_dialogs := [] |}.

(** ** Vocabulary of the properties *)

(** The sentence [displayProfile] renders for a profile. *)
Definition greeting (u : profile) : string :=
  if truthy (readField (age u)) then
    "Your name is " +:+ toString (readField (name u)) +:+ " and you are "
      +:+ toString (readField (age u)) +:+ " years old."
  else
    "Your name is " +:+ toString (readField (name u))
      +:+ " and you did not share your age.".

(** The options [promptForAge] gives the age prompt. *)
Definition agePromptOptions : PromptOptions :=
  {| prompt := "What is your age?";
     retryPrompt :=
       Some "Sorry, please specify your age as a positive number or say cancel.";
     choices := [] |}.

(** The events other than the two saves. *)
Definition notSave (e : event) : Prop := e <> SavedUser /\ e <> SavedConversation.

(** [quiet m]: from every state [m] returns; it leaves the activity and the
    stores alone and only adds events other than the two saves. *)
Definition quiet {A} (m : M A) : Prop :=
  forall t, exists x t' l,
    m t = Ok x t' /\ activity t' = activity t /\ store t' = store t /\
    log t' = log t ++ l /\ Forall notSave l.

(** A step is well behaved when it is quiet as soon as [dc.end] and
    [step.next] are. *)
Definition quietStep (s : WaterfallStep) : Prop :=
  forall dc step,
    (forall r, quiet (dc_end dc r)) -> (forall r, quiet (next step r)) ->
    quiet (s dc step).

(** The profile the stores hold, as [userProfile.get(context, {})] reads it. *)
Definition storedProfile (s : storage) : profile := default emptyProfile (stored_user s).

(** [if (user.name)] on the stored profile. *)
Definition nameGiven (s : storage) : bool := truthy (readField (name (storedProfile s))).

(** An age is only there with a name. *)
Definition ageHasName (u : profile) : Prop := is_Some (age u) -> is_Some (name u).

(** What holds of the stores between turns, from an empty dialog stack on:
    the stack is empty, or holds a prompt on top of the onboarding
    waterfall, which then has run one of its first three steps; before
    [confirmAgePrompt] has run the name is not given, after it the name is
    there. *)
Definition betweenTurns (s : storage) : Prop :=
  stored_dialogs s = [] \/
  exists p o i,
    stored_dialogs s = [PromptInst p o; WaterfallInst WHO_ARE_YOU i] /\
    i <= 2 /\
    (i = 0 -> nameGiven s = false) /\
    (1 <= i -> is_Some (name (storedProfile s))).

(** What a cancel turn comes to. *)
Definition cancelTrace (stk : list instance) : list event :=
  match stk with
  | [] => [Sent "Nothing to cancel."]
  | _ :: _ => [CancelledAll; Sent "Ok... canceled."]
  end ++ [SavedUser; SavedConversation].

(** The options [promptForName] gives the name prompt. *)
Definition namePromptOptions : PromptOptions :=
  {| prompt := "What is your name, human?"; retryPrompt := None; choices := [] |}.

(** U+00A0, U+3000 and U+FEFF in their encodings. *)
Definition nbsp : string := String (ascii_of_nat 194) (String (ascii_of_nat 160) "").
Definition ideographicSpace : string :=
  String (ascii_of_nat 227) (String (ascii_of_nat 128) (String (ascii_of_nat 128) "")).
Definition byteOrderMark : string :=
  String (ascii_of_nat 239) (String (ascii_of_nat 187) (String (ascii_of_nat 191) "")).

(** Sample recognisers, to run the bot on concrete replies: any text that
    is not empty; a choice spelled out; a decimal number among a few. *)
Definition sampleText (a : Activity) : option string :=
  match text a with
  | Some s => if (s =? "") then None else Some s
  | None => None
  end.

Definition sampleChoice (cs : list string) (a : Activity) : option jsval :=
  match text a with
  | Some s => if existsb (String.eqb s) cs
              then Some (JObj (FCons "value" (JStr s) FNil)) else None
  | None => None
  end.

Definition sampleNumber (a : Activity) : option Qc :=
  match text a with
  | Some "0" => Some (numZ 0)
  | Some "7" => Some (numZ 7)
  | Some "34" => Some (numZ 34)
  | Some "-5" => Some (numZ (-5))
  | Some "-0.5" => Some (Q2Qc (-1 # 2))
  | Some "34.5" => Some (Q2Qc (69 # 2))
  | _ => None
  end.

(** A stand-in for the language's printing of the other numbers: the
    fraction in lowest terms. *)
Definition sampleNumberToString (x : Qc) : string :=
  pretty (Qnum x) +:+ "/" +:+ pretty (Zpos (Qden x)).

(** The options [confirmAgePrompt] gives the choice prompt. *)
Definition confirmPromptOptions : PromptOptions :=
  {| prompt := "Do you want to give your age?"; retryPrompt := None;
     choices := ["yes"; "no"] |}.

(** The text [onTurn] sends to a member who joins the conversation. *)
Definition welcomeText : string :=
  "I am a bot that demonstrates the TextPrompt and NumberPrompt classes to collect your name and age, then store those values in UserState for later use. Say anything to continue.".

(** The four dialog stacks the bot leaves between turns: none, or the
    onboarding waterfall below the prompt its last step has issued. *)
Definition pending (s : storage) : Prop :=
  stored_dialogs s = [] \/
  stored_dialogs s = [PromptInst NAME_PROMPT namePromptOptions;
                      WaterfallInst WHO_ARE_YOU 0] \/
  stored_dialogs s = [PromptInst CONFIRM_PROMPT confirmPromptOptions;
                      WaterfallInst WHO_ARE_YOU 1] \/
  stored_dialogs s = [PromptInst AGE_PROMPT agePromptOptions;
                      WaterfallInst WHO_ARE_YOU 2].

(** A name is a string; an age is a number that is not negative. *)
Definition wellTyped (u : profile) : Prop :=
  (forall v, name u = Some v -> exists s, v = JStr s) /\
  (forall v, age u = Some v -> exists n, v = JNum n /\ (numZ 0 <= n)%Qc).

(** A choice result whose [value] is the string "yes". *)
Definition choseYes (r : jsval) : Prop :=
  exists fields, r = JObj fields /\ lookupField "value" fields = Some (JStr "yes").

(** A message that is not a cancel. *)
Definition plainMessage (a : Activity) : Prop :=
  activity_type a = "message" /\ utterance a <> "cancel".

(** A message that is not a cancel and that the number recogniser reads as
    a negative number. *)
Definition negativeReply (recognizeNumber : Activity -> option Qc) (a : Activity) : Prop :=
  plainMessage a /\ exists v, recognizeNumber a = Some v /\ (v < numZ 0)%Qc.

(** A name, when there is one, is a string that is not empty. *)
Definition nameNotEmpty (u : profile) : Prop :=
  forall v, name u = Some v -> exists s, v = JStr s /\ s <> "".

(** * Properties *)

(** Symbolic execution of a turn: the operations of the monad are unfolded
    and the trace is put in normal form. *)
Ltac unfold_ops :=
  unfold bind, ret, throw, getActivity, getResponded, getStack, setStack, logEvent,
    sendActivity, sendChoices, userProfile_get, userProfile_set,
    userState_saveChanges, conversationState_saveChanges.

Ltac exec := repeat (progress (unfold_ops; simpl)); repeat rewrite <- app_assoc; simpl.

Ltac unfold_dialogs :=
  unfold runStep, setStepIndex, dc_prompt, onPrompt, dc_cancelAll, dc_begin,
    dialogContext, promptForName, confirmAgePrompt, promptForAge, captureAge,
    displayProfile, getProp.

Ltac exec_all :=
  repeat (progress (unfold_ops; unfold_dialogs; simpl));
  repeat rewrite <- app_assoc; simpl.

(** ** JavaScript values *)

Lemma numEq_true (x y : Qc) : numEq x y = true <-> x = y.
Proof.
  split; [apply Qc_eq_bool_correct|].
  intros ->. unfold numEq, Qc_eq_bool.
  destruct (Qcanon.Qc_eq_dec y y); [reflexivity|contradiction].
Qed.

Lemma numEq_false (x y : Qc) : numEq x y = false <-> x <> y.
Proof.
  destruct (numEq x y) eqn:E; split; intros H.
  - discriminate H.
  - apply numEq_true in E. contradiction.
  - intros Hxy. apply numEq_true in Hxy. congruence.
  - reflexivity.
Qed.

Lemma ltZero_true (x : Qc) : ltZero x = true <-> (x < numZ 0)%Qc.
Proof.
  unfold ltZero. rewrite Qclt_alt.
  destruct (x ?= numZ 0)%Qc; split; try discriminate; reflexivity.
Qed.

Lemma ltZero_false (x : Qc) : ltZero x = false <-> (numZ 0 <= x)%Qc.
Proof.
  rewrite Qcle_ngt, <- ltZero_true. destruct (ltZero x); split; congruence.
Qed.

Lemma numZ_parts (z : Z) : Qnum (numZ z) = z /\ Qden (numZ z) = 1%positive.
Proof.
  unfold numZ, Q2Qc. simpl this.
  rewrite Qred_identity; [split; reflexivity|].
  simpl. apply Z.gcd_1_r.
Qed.

(** A safe integer is printed by its decimal digits, whatever the language
    does with the other numbers. *)
Lemma toString_safe_integer (z : Z) :
  (Z.abs z <= 9007199254740991)%Z -> toString (JNum (numZ z)) = pretty z.
Proof.
  intros Hz. unfold toString, safeInteger.
  destruct (numZ_parts z) as [-> ->]. simpl Pos.eqb.
  apply Z.leb_le in Hz. rewrite Hz. reflexivity.
Qed.

(** [undefined < 0] is false: the validator ends the prompt with
    undefined when it is given no recognised value. *)
Lemma ageValidator_undefined (t : turn) : ageValidator None t = Ok (Some JUndefined) t.
Proof. reflexivity. Qed.

Lemma strictEquals_num (v : jsval) (n : Qc) :
  strictEquals v (JNum n) = true <-> v = JNum n.
Proof.
  destruct v; simpl; split; try discriminate; intros H.
  - apply numEq_true in H. now subst.
  - injection H as ->. apply numEq_true. reflexivity.
Qed.

Lemma strictEquals_str (v : jsval) (s : string) :
  strictEquals v (JStr s) = true <-> v = JStr s.
Proof.
  destruct v; simpl; split; try discriminate; intros H.
  - apply String.eqb_eq in H. now subst.
  - injection H as ->. apply String.eqb_refl.
Qed.

Lemma strictEquals_num_false (v : jsval) (n : Qc) :
  v <> JNum n -> strictEquals v (JNum n) = false.
Proof.
  intros H. destruct (strictEquals v (JNum n)) eqn:E; [|reflexivity].
  apply strictEquals_num in E. contradiction.
Qed.

(** ** The greeting flow *)


Lemma displayProfile_eq (dc : DialogContext) (step : StepContext) (t : turn) :
  displayProfile dc step t =
  dc_end dc JUndefined
    (Turn (activity t) true (user t) (dialogStack t)
          (log t ++ [ProfileRead; Sent (greeting (default emptyProfile (user t)))])
          (store t)).
Proof.
  unfold displayProfile, greeting, bind, userProfile_get, sendActivity. simpl.
  destruct (truthy (readField (age (default emptyProfile (user t))))); simpl;
    rewrite <- app_assoc; reflexivity.
Qed.

Lemma begin_HELLO_USER_eq (a : Activity) (r : bool) (u : option profile)
    (l : list event) (s : storage) :
  dc_begin HELLO_USER (Turn a r u [] l s) =
  Ok tt (Turn a true u []
           (l ++ [Begun HELLO_USER; Stepped HELLO_USER 0 JUndefined; ProfileRead;
                  Sent (greeting (default emptyProfile u)); Ended JUndefined])
           s).
Proof.
  unfold dc_begin, runStep, bind, getStack, logEvent, setStack. simpl.
  unfold bind, setStepIndex, getStack, logEvent, setStack, bind. simpl.
  rewrite displayProfile_eq. simpl.
  unfold bind, logEvent, setStack. simpl.
  repeat rewrite <- app_assoc. reflexivity.
Qed.

(** C1: a stored profile whose age is 0 has its age field present, yet the
    greeting flow answers that the age was not shared: [if (user.age)]
    takes 0 for absent, although the validator accepts 0 and [captureAge]
    stores it. *)
Theorem displayProfile_age_zero (nm : string) (a : Activity) :
  let p := Profile (Some (JStr nm)) (Some (JNum (numZ 0))) in
  sent (log (finalTurn (dc_begin HELLO_USER (newTurn (initialStorage (Some p)) a))))
  = ["Your name is " +:+ nm +:+ " and you did not share your age."].
Proof.
  intros p. unfold newTurn, initialStorage. simpl stored_user. simpl stored_dialogs.
  rewrite begin_HELLO_USER_eq. reflexivity.
Qed.

(** For an age that is present and not falsy, and for an absent age, the
    greeting is the sentence the flow is meant to send. *)
Lemma greeting_age_present (u : profile) (v : jsval) :
  age u = Some v -> truthy v = true ->
  greeting u = "Your name is " +:+ toString (readField (name u)) +:+ " and you are "
                 +:+ toString v +:+ " years old.".
Proof. intros Ha Hv. unfold greeting. rewrite Ha. simpl. rewrite Hv. reflexivity. Qed.

Lemma greeting_age_absent (u : profile) :
  age u = None ->
  greeting u = "Your name is " +:+ toString (readField (name u))
                 +:+ " and you did not share your age.".
Proof. intros Ha. unfold greeting. rewrite Ha. reflexivity. Qed.

(** C9: the greeting flow, begun twice in a row on an empty dialog stack,
    sends the same sentence both times, writes nothing to the profile and
    leaves it as it was. *)
Theorem greeting_twice (a : Activity) (r : bool) (u : option profile)
    (l : list event) (s : storage) :
  let t := Turn a r u [] l s in
  let once := [Begun HELLO_USER; Stepped HELLO_USER 0 JUndefined; ProfileRead;
               Sent (greeting (default emptyProfile u)); Ended JUndefined] in
  exists t1 t2,
    dc_begin HELLO_USER t = Ok tt t1 /\
    dc_begin HELLO_USER t1 = Ok tt t2 /\
    log t1 = log t ++ once /\
    log t2 = log t1 ++ once /\
    user t1 = u /\ user t2 = u /\
    store t1 = s /\ store t2 = s /\
    dialogStack t1 = [] /\ dialogStack t2 = [].
Proof.
  intros t once. subst t.
  eexists. eexists.
  split; [apply begin_HELLO_USER_eq|].
  split; [apply begin_HELLO_USER_eq|].
  simpl. repeat split; reflexivity.
Qed.

(** ** The onboarding flow *)

Lemma resumeDialog_nil (r : jsval) (t : turn) :
  resumeDialog [] r t =
  Ok tt (Turn (activity t) (responded t) (user t) [] (log t) (store t)).
Proof. reflexivity. Qed.

(** C7: [captureAge] on a result other than -1 reads the profile, sets its
    age to the result, writes it back and sends the confirmation; on -1 it
    sends "No age given." and writes nothing; either way it then ends the
    dialog, which pops it from the stack and resumes what is below. *)
Theorem captureAge_spec (parents : list instance) (r : jsval)
    (nx : jsval -> M unit) (t : turn) :
  let dc := dialogContext parents in
  let step := {| result := r; next := nx |} in
  let u := default emptyProfile (user t) in
  let u' := Profile (name u) (Some r) in
  (r <> JNum (numZ (-1)) ->
     captureAge dc step t =
     resumeDialog parents JUndefined
       (Turn (activity t) true (Some u') (dialogStack t)
          (log t ++ [ProfileRead; ProfileWritten u';
                     Sent ("I will remember that you are " +:+ toString r
                           +:+ " years old.");
                     Ended JUndefined])
          (store t))) /\
  (r = JNum (numZ (-1)) ->
     captureAge dc step t =
     resumeDialog parents JUndefined
       (Turn (activity t) true (user t) (dialogStack t)
          (log t ++ [ProfileRead; Sent "No age given."; Ended JUndefined])
          (store t))) /\
  (exists t', captureAge (dialogContext []) step t = Ok tt t' /\ dialogStack t' = []).
Proof.
  intros dc step u u'. subst dc step u' u.
  unfold captureAge, dialogContext. exec.
  split; [|split].
  - intros Hr. rewrite (strictEquals_num_false _ _ Hr). exec. reflexivity.
  - intros ->. exec. reflexivity.
  - destruct (strictEquals r (JNum (numZ (-1)))); exec; eexists; split; reflexivity.
Qed.


(** Whether [step.result && step.result.value === 'yes'] holds. *)
Lemma promptForAge_test_yes (fields : jsfields) :
  lookupField "value" fields = Some (JStr "yes") ->
  strictEquals (default JUndefined (lookupField "value" fields)) (JStr "yes") = true.
Proof. intros ->. reflexivity. Qed.

Lemma promptForAge_test_other (fields : jsfields) :
  lookupField "value" fields <> Some (JStr "yes") ->
  strictEquals (default JUndefined (lookupField "value" fields)) (JStr "yes") = false.
Proof.
  intros H. destruct (lookupField "value" fields) as [v|]; simpl; [|reflexivity].
  destruct (strictEquals v (JStr "yes")) eqn:E; [|reflexivity].
  apply strictEquals_str in E. subst. contradiction.
Qed.

(** C5: [promptForAge] issues the number prompt "What is your age?", with
    its retry message, exactly when the choice result is an object whose
    [value] is the string "yes"; on every other result it calls
    [step.next(-1)] and nothing else, so that the waterfall goes on to
    [captureAge] with -1 and no prompt is issued. *)
Theorem promptForAge_spec (dc : DialogContext) (r : jsval)
    (nx : jsval -> M unit) (t : turn) :
  let step := {| result := r; next := nx |} in
  (forall fields, r = JObj fields ->
     lookupField "value" fields = Some (JStr "yes") ->
     promptForAge dc step t =
     Ok tt (Turn (activity t) true (user t)
              (PromptInst AGE_PROMPT agePromptOptions :: dialogStack t)
              (log t ++ [Prompted AGE_PROMPT agePromptOptions; Sent "What is your age?"])
              (store t))) /\
  ((forall fields, r = JObj fields ->
      lookupField "value" fields <> Some (JStr "yes")) ->
     promptForAge dc step t = nx (JNum (numZ (-1))) t /\
     resumeDialog [WaterfallInst WHO_ARE_YOU 1] r t =
     Ok tt (Turn (activity t) true (user t) []
              (log t ++ [Stepped WHO_ARE_YOU 2 r; Stepped WHO_ARE_YOU 3 (JNum (numZ (-1)));
                         ProfileRead; Sent "No age given."; Ended JUndefined])
              (store t))).
Proof.
  intros step. subst step. split.
  - intros fields -> Hv.
    unfold promptForAge, bind, getProp, ret. simpl.
    rewrite (promptForAge_test_yes _ Hv).
    unfold dc_prompt, onPrompt. exec. reflexivity.
  - intros Hno.
    assert (Hstep : forall dc' nx' t',
               promptForAge dc' {| result := r; next := nx' |} t' =
               nx' (JNum (numZ (-1))) t').
    { intros dc' nx' t'. unfold promptForAge, bind, getProp, ret, throw. simpl.
      destruct r as [| |b|n|s|fields]; simpl; try reflexivity.
      - destruct b; reflexivity.
      - destruct (numEq n (numZ 0)); reflexivity.
      - destruct (s =? ""); reflexivity.
      - rewrite (promptForAge_test_other fields (Hno fields eq_refl)). reflexivity. }
    split; [apply Hstep|].
    unfold resumeDialog, runStep. simpl drop. unfold runSteps.
    unfold bind at 1. simpl. unfold bind at 1. simpl. unfold bind at 1. simpl.
    rewrite Hstep.
    unfold setStepIndex, captureAge. exec. reflexivity.
Qed.

(** ** The age validator *)

Lemma ageValidator_negative (value : Qc) (t : turn) :
  (value < numZ 0)%Qc ->
  ageValidator (Some value) t =
  Ok None (Turn (activity t) true (user t) (dialogStack t)
             (log t ++ [Sent "Your age can't be less than zero."]) (store t)).
Proof.
  intros H. unfold ageValidator. apply ltZero_true in H. rewrite H. reflexivity.
Qed.

Lemma ageValidator_nonnegative (value : Qc) (t : turn) :
  (numZ 0 <= value)%Qc -> ageValidator (Some value) t = Ok (Some (JNum value)) t.
Proof.
  intros H. unfold ageValidator. apply ltZero_false in H. rewrite H. reflexivity.
Qed.

(** ** Dialog operations never throw and never save *)



Lemma quiet_ret {A} (x : A) : quiet (ret x).
Proof.
  intros t. exists x, t, []. rewrite app_nil_r. repeat split; constructor.
Qed.

Lemma quiet_bind {A B} (m : M A) (k : A -> M B) :
  quiet m -> (forall x, quiet (k x)) -> quiet (bind m k).
Proof.
  intros Hm Hk t.
  destruct (Hm t) as (x & t1 & l1 & E1 & Ha1 & Hs1 & Hl1 & Hn1).
  destruct (Hk x t1) as (y & t2 & l2 & E2 & Ha2 & Hs2 & Hl2 & Hn2).
  exists y, t2, (l1 ++ l2). unfold bind. rewrite E1, E2.
  repeat split; try congruence.
  - rewrite Hl2, Hl1, app_assoc. reflexivity.
  - apply Forall_app; split; assumption.
Qed.

Lemma quiet_event {A} (x : A) (f : turn -> turn) (l : list event) :
  (forall t, activity (f t) = activity t /\ store (f t) = store t /\
             log (f t) = log t ++ l) ->
  Forall notSave l -> quiet (fun t => Ok x (f t)).
Proof.
  intros Hf Hl t. destruct (Hf t) as (Ha & Hs & Hlog).
  exists x, (f t), l. repeat split; assumption.
Qed.

Lemma quiet_getActivity : quiet getActivity.
Proof. intros t. exists (activity t), t, []. rewrite app_nil_r. repeat split; constructor. Qed.

Lemma quiet_getResponded : quiet getResponded.
Proof. intros t. exists (responded t), t, []. rewrite app_nil_r. repeat split; constructor. Qed.

Lemma quiet_getStack : quiet getStack.
Proof. intros t. exists (dialogStack t), t, []. rewrite app_nil_r. repeat split; constructor. Qed.

Lemma quiet_setStack (stk : list instance) : quiet (setStack stk).
Proof.
  intros t. eexists tt, _, []. split; [reflexivity|]. simpl. rewrite app_nil_r.
  repeat split; constructor.
Qed.

Lemma quiet_logEvent (e : event) : notSave e -> quiet (logEvent e).
Proof.
  intros He t. eexists tt, _, [e]. split; [reflexivity|]. simpl.
  repeat split; repeat constructor; apply He.
Qed.

Lemma quiet_sendActivity (msg : string) : quiet (sendActivity msg).
Proof.
  intros t. eexists tt, _, [Sent msg]. split; [reflexivity|]. simpl.
  repeat split; repeat constructor; discriminate.
Qed.

Lemma quiet_sendChoices (msg : string) (cs : list string) : quiet (sendChoices msg cs).
Proof.
  intros t. eexists tt, _, [SentChoices msg cs]. split; [reflexivity|]. simpl.
  repeat split; repeat constructor; discriminate.
Qed.

Lemma quiet_userProfile_get : quiet userProfile_get.
Proof.
  intros t. eexists _, _, [ProfileRead]. split; [reflexivity|]. simpl.
  repeat split; repeat constructor; discriminate.
Qed.

Lemma quiet_userProfile_set (p : profile) : quiet (userProfile_set p).
Proof.
  intros t. eexists tt, _, [ProfileWritten p]. split; [reflexivity|]. simpl.
  repeat split; repeat constructor; discriminate.
Qed.

Create HintDb quiet.
#[local] Hint Resolve quiet_ret quiet_getActivity quiet_getResponded quiet_getStack
  quiet_setStack quiet_sendActivity quiet_sendChoices quiet_userProfile_get
  quiet_userProfile_set : quiet.

Ltac quiet_tac :=
  repeat lazymatch goal with
    | |- quiet (bind _ _) => apply quiet_bind; [|intros ?]
    | |- quiet (logEvent _) => apply quiet_logEvent; split; discriminate
    | |- quiet _ => progress auto with quiet
    end.

Lemma quiet_onPrompt (p : prompt_id) (o : PromptOptions) (isRetry : bool) :
  quiet (onPrompt p o isRetry).
Proof. unfold onPrompt. destruct (prompts p); auto with quiet. Qed.

Lemma quiet_dc_prompt (p : prompt_id) (o : PromptOptions) : quiet (dc_prompt p o).
Proof. unfold dc_prompt. quiet_tac. apply quiet_onPrompt. Qed.

#[local] Hint Resolve quiet_onPrompt quiet_dc_prompt : quiet.

Lemma quiet_ageValidator (value : option Qc) : quiet (ageValidator value).
Proof.
  unfold ageValidator.
  destruct (match value with Some x => ltZero x | None => false end); quiet_tac.
Qed.


Lemma quietStep_promptForName : quietStep promptForName.
Proof. intros dc step _ _. apply quiet_dc_prompt. Qed.

Lemma quietStep_confirmAgePrompt : quietStep confirmAgePrompt.
Proof. intros dc step _ _. unfold confirmAgePrompt. quiet_tac. Qed.

Lemma quietStep_promptForAge : quietStep promptForAge.
Proof.
  intros dc step _ Hnext. unfold promptForAge. apply quiet_bind.
  - destruct (result step) as [| |b|n|s|fields]; simpl; unfold getProp;
      repeat match goal with |- context [if ?c then _ else _] => destruct c end;
      quiet_tac.
  - intros [|]; [apply quiet_dc_prompt | apply Hnext].
Qed.

Lemma quietStep_captureAge : quietStep captureAge.
Proof.
  intros dc step Hend _. unfold captureAge. quiet_tac.
  destruct (negb (strictEquals (result step) (JNum (numZ (-1))))); quiet_tac.
Qed.

Lemma quietStep_displayProfile : quietStep displayProfile.
Proof.
  intros dc step Hend _. unfold displayProfile. quiet_tac.
  match goal with |- context [if ?c then _ else _] => destruct c end; quiet_tac.
Qed.

Lemma quietStep_waterfalls (f : flow_id) : Forall quietStep (waterfalls f).
Proof.
  destruct f; repeat constructor;
    auto using quietStep_promptForName, quietStep_confirmAgePrompt,
      quietStep_promptForAge, quietStep_captureAge, quietStep_displayProfile.
Qed.

Lemma quiet_setStepIndex (index : nat) : quiet (setStepIndex index).
Proof.
  intros t. unfold setStepIndex, bind, getStack.
  destruct (dialogStack t) as [|[f i|p o] parents] eqn:E;
    try apply quiet_ret; apply quiet_setStack.
Qed.

Lemma quiet_runSteps (f : flow_id) (steps : list WaterfallStep) (dc : DialogContext) :
  Forall quietStep steps -> (forall r, quiet (dc_end dc r)) ->
  forall index r, quiet (runSteps f index steps dc r).
Proof.
  intros Hsteps Hend. induction Hsteps as [|s rest Hs _ IH]; intros index r; simpl.
  - apply Hend.
  - apply quiet_bind; [apply quiet_setStepIndex|intros _].
    apply quiet_bind; [apply quiet_logEvent; split; discriminate|intros _].
    apply Hs; [exact Hend|]. intros r'. apply IH.
Qed.

Lemma quiet_runStep (f : flow_id) (index : nat) (dc : DialogContext) (r : jsval) :
  (forall r', quiet (dc_end dc r')) -> quiet (runStep f index dc r).
Proof.
  intros Hend. unfold runStep. apply quiet_runSteps; [|exact Hend].
  apply Forall_drop, quietStep_waterfalls.
Qed.

Lemma quiet_resumeDialog (stk : list instance) : forall r, quiet (resumeDialog stk r).
Proof.
  induction stk as [|[f i|p o] parents IH]; intros r; simpl.
  - quiet_tac.
  - apply quiet_bind; [apply quiet_setStack|intros _].
    apply quiet_runStep. intros r'. simpl. quiet_tac.
  - apply quiet_bind; [apply quiet_setStack|intros _]. apply quiet_onPrompt.
Qed.

Lemma quiet_dc_end (parents : list instance) (r : jsval) :
  quiet (dc_end (dialogContext parents) r).
Proof. simpl. quiet_tac. apply quiet_resumeDialog. Qed.

Lemma quiet_dc_begin (f : flow_id) : quiet (dc_begin f).
Proof.
  unfold dc_begin. quiet_tac. apply quiet_runStep. intros r. apply quiet_dc_end.
Qed.

Lemma quiet_dc_cancelAll : quiet dc_cancelAll.
Proof. unfold dc_cancelAll. quiet_tac. Qed.

(** ** The turn handler *)

Section TurnProperties.

Variable recognizeText : Activity -> option string.
Variable recognizeChoice : list string -> Activity -> option jsval.
Variable recognizeNumber : Activity -> option Qc.

#[local] Abbreviation promptContinue' :=
  (promptContinue recognizeText recognizeChoice recognizeNumber).
#[local] Abbreviation dc_continue' :=
  (dc_continue recognizeText recognizeChoice recognizeNumber).
#[local] Abbreviation onTurn' := (onTurn recognizeText recognizeChoice recognizeNumber).
#[local] Abbreviation resumeOrBegin' :=
  (resumeOrBegin recognizeText recognizeChoice recognizeNumber).
#[local] Abbreviation processActivity' :=
  (processActivity recognizeText recognizeChoice recognizeNumber).
#[local] Abbreviation afterTurn' :=
  (afterTurn recognizeText recognizeChoice recognizeNumber).
#[local] Abbreviation run' := (run recognizeText recognizeChoice recognizeNumber).
#[local] Abbreviation runLog' := (runLog recognizeText recognizeChoice recognizeNumber).

Lemma quiet_promptContinue (p : prompt_id) (o : PromptOptions) (parents : list instance) :
  quiet (promptContinue' p o (dialogContext parents)).
Proof.
  unfold promptContinue.
  apply quiet_bind; [apply quiet_getActivity|intros a].
  apply quiet_bind.
  - destruct p; simpl; auto with quiet.
    destruct (recognizeNumber a); auto using quiet_ageValidator with quiet.
  - intros [r|]; [apply quiet_dc_end|].
    apply quiet_bind; [apply quiet_getResponded|intros [|]]; auto with quiet.
Qed.

Lemma quiet_dc_continue : quiet dc_continue'.
Proof.
  intros t. unfold dc_continue, bind at 1, getStack.
  destruct (dialogStack t) as [|[f i|p o] parents].
  - apply quiet_ret.
  - apply quiet_bind; [apply quiet_logEvent; split; discriminate|intros _].
    apply quiet_bind; [apply quiet_getActivity|intros a].
    apply quiet_runStep. intros r. apply quiet_dc_end.
  - apply quiet_bind; [apply quiet_logEvent; split; discriminate|intros _].
    apply quiet_promptContinue.
Qed.

Lemma onTurn_message (t : turn) :
  activity_type (activity t) = "message" ->
  utterance (activity t) <> "cancel" ->
  onTurn' t = resumeOrBegin' t.
Proof.
  intros Hty Hut. unfold onTurn, resumeOrBegin.
  unfold bind at 1. unfold getActivity at 1. cbv beta iota.
  rewrite Hty. rewrite String.eqb_refl.
  apply String.eqb_neq in Hut. rewrite Hut.
  reflexivity.
Qed.

Lemma quiet_resumeOrBegin_dialogs :
  quiet (await dc_continue' ;;
         let* r := getResponded in
         if negb r then
           let* u := userProfile_get in
           if truthy (readField (name u)) then dc_begin HELLO_USER
           else dc_begin WHO_ARE_YOU
         else ret tt).
Proof.
  apply quiet_bind; [apply quiet_dc_continue|intros _].
  apply quiet_bind; [apply quiet_getResponded|intros [|]]; simpl; [apply quiet_ret|].
  apply quiet_bind; [apply quiet_userProfile_get|intros u].
  destruct (truthy (readField (name u))); apply quiet_dc_begin.
Qed.

(** A quiet operation followed by the two saves: the turn returns and its
    trace ends with the save of the user store, then that of the
    conversation store, which are the only saves in it. *)
Lemma saves_after_quiet (m : M unit) (t : turn) :
  quiet m ->
  exists t' l,
    (await m ;; await userState_saveChanges ;; conversationState_saveChanges) t
      = Ok tt t' /\
    log t' = log t ++ l ++ [SavedUser; SavedConversation] /\ Forall notSave l /\
    store t' = {| stored_user := user t'; stored_dialogs := dialogStack t' |}.
Proof.
  intros Hm. destruct (Hm t) as ([] & t1 & l & E & _ & _ & Hl & Hn).
  eexists _, l. unfold bind at 1. rewrite E. exec.
  split; [reflexivity|]. simpl. rewrite Hl. rewrite <- app_assoc.
  repeat split; assumption.
Qed.

(** C10: a message whose text is absent or empty makes [onTurn] return: the
    utterance is the empty string, which is not "cancel", and the turn does
    what it does for every message that is not a cancel: it resumes the
    active dialog or begins one, then saves. *)
Theorem onTurn_message_without_text (s : storage) (a : Activity) :
  activity_type a = "message" ->
  text a = None \/ text a = Some "" ->
  utterance a = "" /\ utterance a <> "cancel" /\
  processActivity' s a = resumeOrBegin' (newTurn s a) /\
  exists t', processActivity' s a = Ok tt t'.
Proof.
  intros Hty Htext.
  assert (Hu : utterance a = "").
  { unfold utterance. destruct Htext as [-> | ->]; reflexivity. }
  assert (Hnc : utterance a <> "cancel") by (rewrite Hu; discriminate).
  assert (Heq : processActivity' s a = resumeOrBegin' (newTurn s a)).
  { unfold processActivity. apply onTurn_message; assumption. }
  repeat split; try assumption.
  rewrite Heq. unfold resumeOrBegin.
  destruct (saves_after_quiet _ (newTurn s a) quiet_resumeOrBegin_dialogs)
    as (t' & l & E & _).
  exists t'. exact E.
Qed.

Lemma onTurn_cancel_eq (s : storage) (a : Activity) :
  activity_type a = "message" ->
  utterance a = "cancel" ->
  processActivity' s a =
  Ok tt (Turn a true (stored_user s) [] (cancelTrace (stored_dialogs s))
           {| stored_user := stored_user s; stored_dialogs := [] |}).
Proof.
  intros Hty Hut. unfold processActivity, onTurn.
  unfold bind at 1. unfold getActivity at 1. cbv beta iota.
  unfold newTurn at 1 2 3. simpl activity.
  rewrite Hty, Hut. simpl String.eqb.
  destruct s as [u [|d stk]]; unfold newTurn, dc_continue, dc_cancelAll; exec; reflexivity.
Qed.

(** C3: on a message whose normalised text is "cancel", [onTurn] clears
    the dialog stack and sends "Ok... canceled." when a dialog is active,
    and sends "Nothing to cancel." when none is; the trace of the turn
    holds nothing else but the two saves: no dialog is begun, and no
    dialog is continued with, or steps on, the text. *)
Theorem onTurn_cancel (s : storage) (a : Activity) :
  activity_type a = "message" ->
  utterance a = "cancel" ->
  let l := match stored_dialogs s with
           | [] => [Sent "Nothing to cancel."]
           | _ :: _ => [CancelledAll; Sent "Ok... canceled."]
           end ++ [SavedUser; SavedConversation] in
  processActivity' s a =
    Ok tt (Turn a true (stored_user s) [] l
             {| stored_user := stored_user s; stored_dialogs := [] |}) /\
  sent l = [match stored_dialogs s with
            | [] => "Nothing to cancel."
            | _ :: _ => "Ok... canceled."
            end] /\
  (forall f, ~ In (Begun f) l) /\
  (forall d, ~ In (Continued d) l) /\
  (forall f i r, ~ In (Stepped f i r) l) /\
  (forall p o, ~ In (Prompted p o) l).
Proof.
  intros Hty Hut l. split; [exact (onTurn_cancel_eq s a Hty Hut)|].
  subst l. destruct (stored_dialogs s); simpl;
    repeat split; intros; intuition discriminate.
Qed.

(** *** Replies to the age prompt *)

(** The stores once "yes" has been chosen: the age prompt is pending on top
    of the onboarding waterfall, which has run [promptForAge]. *)
Lemma age_reply_rejected (u : option profile) (o : PromptOptions) (a : Activity) (v : Qc) :
  let s := {| stored_user := u;
              stored_dialogs := [PromptInst AGE_PROMPT o; WaterfallInst WHO_ARE_YOU 2] |} in
  activity_type a = "message" -> utterance a <> "cancel" ->
  recognizeNumber a = Some v -> (v < numZ 0)%Qc ->
  processActivity' s a =
  Ok tt (Turn a true u [PromptInst AGE_PROMPT o; WaterfallInst WHO_ARE_YOU 2]
           [Continued (PromptInst AGE_PROMPT o); Sent "Your age can't be less than zero.";
            SavedUser; SavedConversation] s).
Proof.
  intros s Hty Hut Hrn Hv. unfold processActivity.
  rewrite onTurn_message by assumption.
  unfold resumeOrBegin, dc_continue, promptContinue, newTurn. subst s. exec.
  rewrite Hrn. apply ltZero_true in Hv. unfold ageValidator. rewrite Hv. exec.
  reflexivity.
Qed.

Lemma sentinel_is_negative (v : Qc) : (numZ 0 <= v)%Qc -> v <> numZ (-1).
Proof. intros Hv ->. apply Hv. reflexivity. Qed.

Lemma age_reply_accepted (u : option profile) (o : PromptOptions) (a : Activity) (v : Qc) :
  let s := {| stored_user := u;
              stored_dialogs := [PromptInst AGE_PROMPT o; WaterfallInst WHO_ARE_YOU 2] |} in
  let u' := Profile (name (default emptyProfile u)) (Some (JNum v)) in
  activity_type a = "message" -> utterance a <> "cancel" ->
  recognizeNumber a = Some v -> (numZ 0 <= v)%Qc ->
  processActivity' s a =
  Ok tt (Turn a true (Some u') []
           [Continued (PromptInst AGE_PROMPT o); Ended (JNum v);
            Stepped WHO_ARE_YOU 3 (JNum v); ProfileRead; ProfileWritten u';
            Sent ("I will remember that you are " +:+ toString (JNum v) +:+ " years old.");
            Ended JUndefined; SavedUser; SavedConversation]
           {| stored_user := Some u'; stored_dialogs := [] |}).
Proof.
  intros s u' Hty Hut Hrn Hv. unfold processActivity.
  rewrite onTurn_message by assumption.
  unfold resumeOrBegin, dc_continue, promptContinue, newTurn. subst s u'. exec.
  rewrite Hrn. pose proof Hv as Hv'. apply ltZero_false in Hv'.
  unfold ageValidator. rewrite Hv'.
  exec_all.
  assert (Hne : numEq v (numZ (-1)) = false)
    by (apply numEq_false, sentinel_is_negative, Hv).
  rewrite Hne. exec_all. reflexivity.
Qed.

(** C6: the validator of the age prompt rejects a recognised value exactly
    when it is less than zero, whether it is an integer or a fraction: it
    then sends the one message "Your age can't be less than zero." and does
    not end the prompt, which stays pending; a value that is zero or more
    ends the prompt with that value.  After "yes", a negative reply is
    answered by that one message, and the next reply, when not negative,
    is accepted and remembered. *)
Theorem ageValidator_spec :
  (forall (v : Qc) (t : turn), (v < numZ 0)%Qc ->
     ageValidator (Some v) t =
     Ok None (Turn (activity t) true (user t) (dialogStack t)
                (log t ++ [Sent "Your age can't be less than zero."]) (store t))) /\
  (forall (v : Qc) (t : turn), (numZ 0 <= v)%Qc ->
     ageValidator (Some v) t = Ok (Some (JNum v)) t) /\
  (forall (u : option profile) (a1 a2 : Activity) (v1 v2 : Qc),
     let s := {| stored_user := u;
                 stored_dialogs := [PromptInst AGE_PROMPT agePromptOptions;
                                    WaterfallInst WHO_ARE_YOU 2] |} in
     activity_type a1 = "message" -> utterance a1 <> "cancel" ->
     recognizeNumber a1 = Some v1 -> (v1 < numZ 0)%Qc ->
     activity_type a2 = "message" -> utterance a2 <> "cancel" ->
     recognizeNumber a2 = Some v2 -> (numZ 0 <= v2)%Qc ->
     log (finalTurn (processActivity' s a1)) =
       [Continued (PromptInst AGE_PROMPT agePromptOptions);
        Sent "Your age can't be less than zero."; SavedUser; SavedConversation] /\
     afterTurn' s a1 = s /\
     sent (runLog' s [a1; a2]) =
       ["Your age can't be less than zero.";
        "I will remember that you are " +:+ toString (JNum v2) +:+ " years old."] /\
     run' s [a1; a2] =
       {| stored_user := Some (Profile (name (default emptyProfile u)) (Some (JNum v2)));
          stored_dialogs := [] |}).
Proof.
  split; [exact ageValidator_negative|].
  split; [exact ageValidator_nonnegative|].
  intros u a1 a2 v1 v2 s Hty1 Hut1 Hrn1 Hv1 Hty2 Hut2 Hrn2 Hv2.
  pose proof (age_reply_rejected u agePromptOptions a1 v1 Hty1 Hut1 Hrn1 Hv1) as E1.
  pose proof (age_reply_accepted u agePromptOptions a2 v2 Hty2 Hut2 Hrn2 Hv2) as E2.
  cbv zeta in E1, E2. fold s in E1, E2.
  assert (Hs : afterTurn' s a1 = s) by (unfold afterTurn; rewrite E1; reflexivity).
  split; [rewrite E1; reflexivity|].
  split; [exact Hs|].
  simpl. rewrite Hs. unfold afterTurn. rewrite E1, E2. simpl. split; reflexivity.
Qed.

(** *** The two saves at the end of the turn *)

(** Whenever the member test of the conversation update can be evaluated,
    the turn returns and its trace ends with the save of the user store
    followed by that of the conversation store, each once. *)
Lemma onTurn_saves (s : storage) (a : Activity) :
  activity_type a <> ActivityTypes_ConversationUpdate \/
  (exists m ms, membersAdded a = Some (m :: ms)) ->
  exists t' l,
    processActivity' s a = Ok tt t' /\
    log t' = l ++ [SavedUser; SavedConversation] /\ Forall notSave l /\
    store t' = {| stored_user := user t'; stored_dialogs := dialogStack t' |}.
Proof.
  intros Ha. unfold processActivity, onTurn.
  unfold bind at 1. unfold getActivity at 1. cbv beta iota.
  unfold newTurn at 1 2 3. simpl activity.
  match goal with
  | |- context [bind ?m (fun _ => bind userState_saveChanges _) ?t] =>
      assert (Hq : quiet m); [|destruct (saves_after_quiet m t Hq) as (t' & l & E & Hl & Hn & Hs)]
  end.
  - destruct (activity_type a =? "message").
    + apply quiet_bind.
      * destruct (utterance a =? "cancel"); [|apply quiet_ret].
        intros t. unfold bind at 1, getStack.
        destruct (dialogStack t).
        -- apply quiet_sendActivity.
        -- apply quiet_bind; [apply quiet_dc_cancelAll|intros _; apply quiet_sendActivity].
      * intros _. apply quiet_resumeOrBegin_dialogs.
    + destruct (String.eqb_spec (activity_type a) ActivityTypes_ConversationUpdate)
        as [Heq|Hne]; [|apply quiet_ret].
      destruct Ha as [Ha|(m & ms & Hm)]; [contradiction|]. rewrite Hm.
      apply quiet_bind; [apply quiet_ret|intros m'].
      destruct (negb _); auto with quiet.
  - exists t', l. simpl in Hl. auto.
Qed.

(** C4: a conversation update that carries no [membersAdded] list (members
    were removed, say) makes [onTurn] throw while it evaluates
    [membersAdded[0].name]: neither store is saved, the trace is empty. *)
Theorem onTurn_conversationUpdate_without_members (s : storage) (tx : option string) :
  let a := {| activity_type := "conversationUpdate"; text := tx; membersAdded := None |} in
  processActivity' s a = Throw TypeError (newTurn s a) /\
  log (finalTurn (processActivity' s a)) = [] /\
  afterTurn' s a = s.
Proof.
  intros a. assert (E : processActivity' s a = Throw TypeError (newTurn s a)) by reflexivity.
  unfold afterTurn. rewrite E. repeat split.
Qed.

Lemma onTurn_conversationUpdate_empty_members (s : storage) (tx : option string) :
  let a := {| activity_type := "conversationUpdate"; text := tx; membersAdded := Some [] |} in
  processActivity' s a = Throw TypeError (newTurn s a).
Proof. reflexivity. Qed.

(** *** Across turns *)

Ltac case_step :=
  match goal with
  | |- context [recognizeText ?a] => destruct (recognizeText a) eqn:?
  | |- context [recognizeChoice ?c ?a] => destruct (recognizeChoice c a) eqn:?
  | |- context [recognizeNumber ?a] => destruct (recognizeNumber a) eqn:?
  | |- context [ltZero ?v] => destruct (ltZero v) eqn:?
  | |- context [retryPrompt ?o] => destruct (retryPrompt o) eqn:?
  | |- context [numEq ?n ?m] => destruct (numEq n m) eqn:?
  | |- context [String.eqb ?x ""] => destruct (String.eqb x "") eqn:?
  | |- context [if truthy ?x then _ else _] => destruct (truthy x) eqn:?
  | |- context [if strictEquals ?x ?y then _ else _] => destruct (strictEquals x y) eqn:?
  | |- context [if negb (strictEquals ?x ?y) then _ else _] =>
      destruct (strictEquals x y) eqn:?
  | |- context [match ?r with JUndefined => _ | _ => _ end] => is_var r; destruct r
  | |- context [if ?b then _ else _] => is_var b; destruct b
  end.

Ltac crunch := exec_all; unfold ageValidator; repeat (case_step; exec_all).

Ltac solve_between :=
  unfold betweenTurns, ageHasName, nameGiven, storedProfile in *; simpl in *;
  repeat split;
  try solve
    [ assumption
    | intros; eexists; reflexivity
    | intros; auto with lia
    | left; reflexivity
    | right; eexists _, _, _; repeat split;
      solve [reflexivity | lia | intros; discriminate | intros; lia
            | intros; eexists; reflexivity | intros; auto with lia ]
    | intros; congruence
    | intros; simpl in *; intuition congruence
    | intros;
      repeat match goal with
        | H : _ \/ _ |- _ => destruct H as [H|H]; try discriminate H
        | H : False |- _ => destruct H
        | H : ProfileWritten _ = ProfileWritten _ |- _ =>
            injection H as <-; simpl in *
        end;
      solve [assumption | eexists; reflexivity | auto with lia ] ].

Lemma betweenTurns_step (s : storage) (a : Activity) :
  betweenTurns s ->
  betweenTurns (afterTurn' s a) /\
  (ageHasName (storedProfile s) ->
   ageHasName (storedProfile (afterTurn' s a)) /\
   forall p, In (ProfileWritten p) (log (finalTurn (processActivity' s a))) ->
             ageHasName p) /\
  (nameGiven s = true ->
   nameGiven (afterTurn' s a) = true /\
   ~ In (Begun WHO_ARE_YOU) (log (finalTurn (processActivity' s a)))).
Proof.
  intros Hstk. destruct s as [u stk]. unfold betweenTurns, storedProfile in *. simpl in *.
  destruct (String.eqb_spec (activity_type a) "message") as [Hty|Hty].
  - destruct (String.eqb_spec (utterance a) "cancel") as [Hut|Hut].
    + unfold afterTurn. rewrite onTurn_cancel_eq by assumption. unfold cancelTrace. simpl.
      split; [left; reflexivity|]. split.
      * intros Hage. split; [exact Hage|].
        intros p Hin. destruct stk; simpl in Hin; intuition discriminate.
      * intros Hn. split; [exact Hn|].
        destruct stk; simpl; intuition discriminate.
    + unfold afterTurn, processActivity. rewrite onTurn_message by assumption.
      unfold resumeOrBegin, dc_continue, newTurn. simpl stored_user. simpl stored_dialogs.
      destruct Hstk as [->|(p & o & i & -> & Hi & H0 & H1)].
      * exec_all. unfold nameGiven, storedProfile. simpl.
        destruct (truthy (readField (name (default emptyProfile u)))) eqn:Hn; crunch;
          solve_between.
      * assert (Hi' : i = 0 \/ i = 1 \/ i = 2) by lia. clear Hi.
        destruct Hi' as [-> | [-> | ->]]; destruct p; exec_all; unfold promptContinue;
          crunch; solve_between.
  - unfold afterTurn, processActivity, onTurn, newTurn.
    apply String.eqb_neq in Hty. exec. rewrite Hty.
    destruct (activity_type a =? ActivityTypes_ConversationUpdate).
    + destruct (membersAdded a) as [[|m ms]|]; crunch; solve_between.
    + crunch; solve_between.
Qed.

Lemma run_app (s : storage) (l1 l2 : list Activity) :
  run' s (l1 ++ l2) = run' (run' s l1) l2.
Proof. revert s. induction l1 as [|a l1 IH]; intros s; simpl; [reflexivity|apply IH]. Qed.

Lemma betweenTurns_initial (u : option profile) : betweenTurns (initialStorage u).
Proof. left. reflexivity. Qed.

Lemma betweenTurns_run (s : storage) (l : list Activity) :
  betweenTurns s -> betweenTurns (run' s l).
Proof.
  revert s. induction l as [|a l IH]; intros s Hs; simpl; [exact Hs|].
  apply IH. apply (betweenTurns_step s a Hs).
Qed.

Lemma ageHasName_run (s : storage) (l : list Activity) :
  betweenTurns s -> ageHasName (storedProfile s) ->
  ageHasName (storedProfile (run' s l)) /\
  forall p, In (ProfileWritten p) (runLog' s l) -> ageHasName p.
Proof.
  revert s. induction l as [|a l IH]; intros s Hs Hage; simpl.
  - split; [exact Hage|]. intros p [].
  - destruct (betweenTurns_step s a Hs) as (Hs' & Hstep & _).
    destruct (Hstep Hage) as (Hage' & Hw).
    destruct (IH _ Hs' Hage') as (Hfin & Hw').
    split; [exact Hfin|].
    intros p Hin. apply in_app_or in Hin. destruct Hin as [Hin|Hin]; auto.
Qed.

Lemma nameGiven_run (s : storage) (l : list Activity) :
  betweenTurns s -> nameGiven s = true ->
  nameGiven (run' s l) = true /\ ~ In (Begun WHO_ARE_YOU) (runLog' s l).
Proof.
  revert s. induction l as [|a l IH]; intros s Hs Hn; simpl.
  - split; [exact Hn|]. intros [].
  - destruct (betweenTurns_step s a Hs) as (Hs' & _ & Hstep).
    destruct (Hstep Hn) as (Hn' & Hlog).
    destruct (IH _ Hs' Hn') as (Hfin & Hlog').
    split; [exact Hfin|].
    intros Hin. apply in_app_or in Hin. destruct Hin as [Hin|Hin]; auto.
Qed.

(** C8: whatever the turns, from an empty profile and an empty dialog
    stack on: if the stored profile has an age it has a name, and every
    profile written along the way that has an age has a name. *)
Theorem age_only_with_name (u0 : option profile) (l : list Activity) (p : profile) :
  default emptyProfile u0 = emptyProfile ->
  let s := run' (initialStorage u0) l in
  (is_Some (age (storedProfile s)) -> is_Some (name (storedProfile s))) /\
  (In (ProfileWritten p) (runLog' (initialStorage u0) l) ->
   is_Some (age p) -> is_Some (name p)).
Proof.
  intros Hu0 s.
  assert (H0 : ageHasName (storedProfile (initialStorage u0))).
  { unfold storedProfile. simpl. rewrite Hu0. intros [v Hv]. discriminate Hv. }
  destruct (ageHasName_run (initialStorage u0) l (betweenTurns_initial u0) H0)
    as (Hfin & Hw).
  split; [exact Hfin|]. intros Hin. exact (Hw p Hin).
Qed.

End TurnProperties.

(** * More of the turn handler *)

Section MoreTurnProperties.

Variable recognizeText : Activity -> option string.
Variable recognizeChoice : list string -> Activity -> option jsval.
Variable recognizeNumber : Activity -> option Qc.

#[local] Abbreviation onTurn' := (onTurn recognizeText recognizeChoice recognizeNumber).
#[local] Abbreviation processActivity' :=
  (processActivity recognizeText recognizeChoice recognizeNumber).
#[local] Abbreviation afterTurn' :=
  (afterTurn recognizeText recognizeChoice recognizeNumber).
#[local] Abbreviation run' := (run recognizeText recognizeChoice recognizeNumber).
#[local] Abbreviation runLog' := (runLog recognizeText recognizeChoice recognizeNumber).

Ltac split_case :=
  match goal with
  | |- context [recognizeText ?a] => destruct (recognizeText a) eqn:?
  | |- context [recognizeChoice ?c ?a] => destruct (recognizeChoice c a) eqn:?
  | |- context [recognizeNumber ?a] => destruct (recognizeNumber a) eqn:?
  | |- context [ltZero ?v] => destruct (ltZero v) eqn:?
  | |- context [numEq ?n ?m] => destruct (numEq n m) eqn:?
  | |- context [String.eqb ?x ?y] => destruct (String.eqb x y) eqn:?
  | |- context [if truthy ?x then _ else _] => destruct (truthy x) eqn:?
  | |- context [if strictEquals ?x ?y then _ else _] => destruct (strictEquals x y) eqn:?
  | |- context [if negb (strictEquals ?x ?y) then _ else _] =>
      destruct (strictEquals x y) eqn:?
  | |- context [match ?r with JUndefined => _ | _ => _ end] => is_var r; destruct r
  | |- context [if ?b then _ else _] => is_var b; destruct b
  end.

Ltac run_turn := exec_all; unfold ageValidator; repeat (split_case; exec_all).

Ltac solve_pending_goal :=
  repeat match goal with H : ltZero _ = false |- _ => apply ltZero_false in H end;
  split;
  [ first [ left; reflexivity | right; left; reflexivity
          | right; right; left; reflexivity | right; right; right; reflexivity ] |];
  split;
  [ unfold wellTyped; simpl; intros [Hn Ha]; split; intros v Hv;
    solve [ auto
          | injection Hv as <-; eexists; reflexivity
          | injection Hv as <-; eexists; split; [reflexivity|assumption] ] |];
  split; [ intros _; reflexivity |];
  split; intros; solve [ assumption | eexists; reflexivity ].

Ltac solve_pending :=
  first [ solve [exfalso; simpl in *; congruence] | solve_pending_goal ].

Lemma pending_step (s : storage) (a : Activity) :
  pending s ->
  pending (afterTurn' s a) /\
  (wellTyped (storedProfile s) -> wellTyped (storedProfile (afterTurn' s a))) /\
  (activity_type a = "message" ->
   length (sent (log (finalTurn (processActivity' s a)))) = 1) /\
  (is_Some (name (storedProfile s)) -> is_Some (name (storedProfile (afterTurn' s a)))) /\
  (is_Some (age (storedProfile s)) -> is_Some (age (storedProfile (afterTurn' s a)))).
Proof.
  intros Hstk. destruct s as [u stk]. unfold pending, storedProfile in *. simpl in *.
  destruct (String.eqb_spec (activity_type a) "message") as [Hty|Hty].
  - destruct (String.eqb_spec (utterance a) "cancel") as [Hut|Hut].
    + unfold afterTurn. rewrite (onTurn_cancel_eq recognizeText recognizeChoice recognizeNumber) by assumption. unfold cancelTrace. simpl.
      split; [left; reflexivity|]. split; [auto|]. split; [|auto].
      intros _. destruct stk; reflexivity.
    + unfold afterTurn, processActivity. rewrite (onTurn_message recognizeText recognizeChoice recognizeNumber) by assumption.
      unfold resumeOrBegin, dc_continue, promptContinue, newTurn.
      simpl stored_user. simpl stored_dialogs.
      destruct Hstk as [-> | [-> | [-> | ->]]]; run_turn; solve_pending.
  - unfold afterTurn, processActivity, onTurn, newTurn.
    pose proof Hty as Hty'. apply String.eqb_neq in Hty'. exec. rewrite Hty'.
    destruct (activity_type a =? ActivityTypes_ConversationUpdate).
    + destruct (membersAdded a) as [[|m ms]|]; run_turn;
        (split; [exact Hstk|]); (split; [auto|]);
        (split; [intros; contradiction|]); split; auto.
    + run_turn; (split; [exact Hstk|]); (split; [auto|]);
        (split; [intros; contradiction|]); split; auto.
Qed.

Lemma pending_run (s : storage) (l : list Activity) :
  pending s -> pending (run' s l).
Proof.
  revert s. induction l as [|a l IH]; intros s Hs; simpl; [exact Hs|].
  apply IH. apply (pending_step s a Hs).
Qed.

Lemma wellTyped_run (s : storage) (l : list Activity) :
  pending s -> wellTyped (storedProfile s) -> wellTyped (storedProfile (run' s l)).
Proof.
  revert s. induction l as [|a l IH]; intros s Hs Hw; simpl; [exact Hw|].
  destruct (pending_step s a Hs) as (Hs' & Hw' & _). apply IH; auto.
Qed.

Lemma fields_kept_run (s : storage) (l : list Activity) :
  pending s ->
  (is_Some (name (storedProfile s)) -> is_Some (name (storedProfile (run' s l)))) /\
  (is_Some (age (storedProfile s)) -> is_Some (age (storedProfile (run' s l)))).
Proof.
  revert s. induction l as [|a l IH]; intros s Hs; simpl; [split; auto|].
  destruct (pending_step s a Hs) as (Hs' & _ & _ & Hn & Ha).
  destruct (IH _ Hs') as (Hn' & Ha'). split; auto.
Qed.

Lemma pending_initial (u : option profile) : pending (initialStorage u).
Proof. left. reflexivity. Qed.

(** X1: between turns the dialog stack is empty or holds the onboarding
    waterfall under the one prompt its last step issued (name prompt at
    step 0, choice prompt at step 1, age prompt at step 2): dialogs never
    nest, and [hello_user] never stays on the stack. *)
Theorem dialog_stack_between_turns (u0 : option profile) (l : list Activity) :
  let stk := stored_dialogs (run' (initialStorage u0) l) in
  stk = [] \/
  stk = [PromptInst NAME_PROMPT namePromptOptions; WaterfallInst WHO_ARE_YOU 0] \/
  stk = [PromptInst CONFIRM_PROMPT confirmPromptOptions; WaterfallInst WHO_ARE_YOU 1] \/
  stk = [PromptInst AGE_PROMPT agePromptOptions; WaterfallInst WHO_ARE_YOU 2].
Proof. exact (pending_run _ l (pending_initial u0)). Qed.

(** X2: from a profile whose name (if any) is a string and whose age (if
    any) is a number that is not negative, every run keeps the stored
    profile so: the name is the text the name prompt recognised, and the
    age went through the validator, so the sentinel -1 of [promptForAge] is
    never stored. *)
Theorem stored_profile_well_typed (u0 : option profile) (l : list Activity) :
  wellTyped (default emptyProfile u0) ->
  let u := storedProfile (run' (initialStorage u0) l) in
  (forall v, name u = Some v -> exists s, v = JStr s) /\
  (forall v, age u = Some v ->
     exists n, v = JNum n /\ (numZ 0 <= n)%Qc /\ v <> JNum (numZ (-1))).
Proof.
  intros Hw u.
  destruct (wellTyped_run _ l (pending_initial u0) Hw) as (Hn & Ha).
  split; [exact Hn|].
  intros v Hv. destruct (Ha v Hv) as (n & -> & Hge).
  exists n. repeat split; [exact Hge|]. intros E. injection E as E.
  exact (sentinel_is_negative n Hge E).
Qed.

(** X3: after any run from an empty dialog stack, a message gets exactly
    one text in reply, whatever it says and whatever is pending. *)
Theorem message_turn_sends_one_text (u0 : option profile) (l : list Activity)
    (a : Activity) :
  activity_type a = "message" ->
  length (sent (log (finalTurn (processActivity' (run' (initialStorage u0) l) a)))) = 1.
Proof.
  intros Hty.
  exact (proj1 (proj2 (proj2 (pending_step _ a (pending_run _ l (pending_initial u0)))))
           Hty).
Qed.

(** X4: no turn removes a field of the profile: a name that is stored
    stays stored (possibly replaced), and so does an age. *)
Theorem profile_fields_are_kept (u0 : option profile) (l1 l2 : list Activity) :
  (is_Some (name (storedProfile (run' (initialStorage u0) l1))) ->
   is_Some (name (storedProfile (run' (initialStorage u0) (l1 ++ l2))))) /\
  (is_Some (age (storedProfile (run' (initialStorage u0) l1))) ->
   is_Some (age (storedProfile (run' (initialStorage u0) (l1 ++ l2))))).
Proof.
  rewrite (run_app recognizeText recognizeChoice recognizeNumber).
  apply fields_kept_run. apply pending_run, pending_initial.
Qed.

(** *** Turns that are not messages *)

Lemma onTurn_not_message (s : storage) (a : Activity) :
  activity_type a <> "message" ->
  processActivity' s a =
  (await (if (activity_type a =? ActivityTypes_ConversationUpdate) then
            let* m := match membersAdded a with
                      | Some (m :: _) => ret m
                      | _ => throw TypeError
                      end in
            if negb (strictEquals (match account_name m with
                                   | Some n => JStr n
                                   | None => JUndefined
                                   end) (JStr "Bot")) then
              sendActivity (String.concat " " description)
            else ret tt
          else ret tt) ;;
   await userState_saveChanges ;;
   conversationState_saveChanges) (newTurn s a).
Proof.
  intros Hty. apply String.eqb_neq in Hty.
  unfold processActivity, onTurn. unfold bind at 1. unfold getActivity at 1.
  cbv beta iota. unfold newTurn at 1 2. simpl activity. rewrite Hty. reflexivity.
Qed.

(** X5: [onTurn] throws exactly on a conversation update whose
    [membersAdded] is missing or empty, and then before anything is sent or
    saved; on every other activity it returns, and its trace ends with the
    save of the user store followed by that of the conversation store,
    which are the only saves of the turn. *)
Theorem onTurn_throws_only_without_members (s : storage) (a : Activity) :
  let noMember := activity_type a = ActivityTypes_ConversationUpdate /\
                  (membersAdded a = None \/ membersAdded a = Some []) in
  (noMember -> processActivity' s a = Throw TypeError (newTurn s a)) /\
  (~ noMember ->
   exists t' l,
     processActivity' s a = Ok tt t' /\
     log t' = l ++ [SavedUser; SavedConversation] /\ Forall notSave l /\
     store t' = {| stored_user := user t'; stored_dialogs := dialogStack t' |}).
Proof.
  intros noMember. subst noMember. split.
  - intros [Hty Hm]. rewrite onTurn_not_message by (rewrite Hty; discriminate).
    rewrite Hty. simpl String.eqb.
    destruct Hm as [-> | ->]; reflexivity.
  - intros Hno. apply onTurn_saves.
    destruct (String.eqb_spec (activity_type a) ActivityTypes_ConversationUpdate)
      as [Hty|Hty]; [right|left; exact Hty].
    destruct (membersAdded a) as [[|m ms]|] eqn:Hm.
    + exfalso. apply Hno. split; [exact Hty|right; reflexivity].
    + exists m, ms. reflexivity.
    + exfalso. apply Hno. split; [exact Hty|left; reflexivity].
Qed.

(** X6: on a conversation update only the first added member is looked
    at: unless its name is 'Bot' the turn sends the description of the bot,
    and nothing else; the profile and the dialog stack are left as they
    were, whoever else was added. *)
Theorem onTurn_welcome (s : storage) (a : Activity) (m : ChannelAccount)
    (ms : list ChannelAccount) :
  activity_type a = ActivityTypes_ConversationUpdate ->
  membersAdded a = Some (m :: ms) ->
  (account_name m <> Some "Bot" ->
   processActivity' s a =
   Ok tt (Turn a true (stored_user s) (stored_dialogs s)
            [Sent welcomeText; SavedUser; SavedConversation]
            {| stored_user := stored_user s; stored_dialogs := stored_dialogs s |})) /\
  (account_name m = Some "Bot" ->
   processActivity' s a =
   Ok tt (Turn a false (stored_user s) (stored_dialogs s)
            [SavedUser; SavedConversation]
            {| stored_user := stored_user s; stored_dialogs := stored_dialogs s |})).
Proof.
  intros Hty Hm.
  rewrite onTurn_not_message by (rewrite Hty; discriminate).
  rewrite Hty, Hm. simpl String.eqb. split.
  - intros Hn. unfold newTurn. exec.
    destruct (account_name m) as [n|]; [|reflexivity].
    simpl. destruct (String.eqb_spec n "Bot") as [->|Hne]; [contradiction|reflexivity].
  - intros Hn. unfold newTurn. exec. rewrite Hn. reflexivity.
Qed.

(** X7: an activity that is not a message never touches the dialogs or
    the profile: whether the turn returns or throws, the stores are
    afterwards what they were, and all the turn can have done is send the
    description and save. *)
Theorem onTurn_not_message_keeps_stores (s : storage) (a : Activity) :
  activity_type a <> "message" ->
  afterTurn' s a = s /\
  forall e, In e (log (finalTurn (processActivity' s a))) ->
            e = Sent welcomeText \/ e = SavedUser \/ e = SavedConversation.
Proof.
  intros Hty. unfold afterTurn. rewrite onTurn_not_message by assumption.
  destruct s as [u stk]. unfold newTurn. simpl stored_user. simpl stored_dialogs.
  destruct (activity_type a =? ActivityTypes_ConversationUpdate).
  - destruct (membersAdded a) as [[|m ms]|]; exec;
      try (split; [reflexivity|intros e []]).
    destruct (negb _); exec; (split; [reflexivity|]);
      intros e He; simpl in He; intuition auto.
  - exec. split; [reflexivity|]. intros e He; simpl in He; intuition auto.
Qed.

(** *** The turns of a conversation, one by one *)

Lemma sent_app (l1 l2 : list event) : sent (l1 ++ l2) = sent l1 ++ sent l2.
Proof.
  induction l1 as [|e l1 IH]; simpl; [reflexivity|].
  destruct e; simpl; rewrite ?IH; reflexivity.
Qed.

Lemma run_cons_ok (s : storage) (a : Activity) (rest : list Activity) (t : turn) :
  processActivity' s a = Ok tt t ->
  run' s (a :: rest) = run' (store t) rest /\
  runLog' s (a :: rest) = log t ++ runLog' (store t) rest.
Proof. intros E. simpl. unfold afterTurn. rewrite E. split; reflexivity. Qed.

Lemma begin_turn (u : option profile) (a : Activity) :
  plainMessage a ->
  processActivity' (initialStorage u) a =
  if nameGiven (initialStorage u) then
    Ok tt (Turn a true u []
             [ProfileRead; Begun HELLO_USER; Stepped HELLO_USER 0 JUndefined; ProfileRead;
              Sent (greeting (default emptyProfile u)); Ended JUndefined;
              SavedUser; SavedConversation]
             (initialStorage u))
  else
    Ok tt (Turn a true u
             [PromptInst NAME_PROMPT namePromptOptions; WaterfallInst WHO_ARE_YOU 0]
             [ProfileRead; Begun WHO_ARE_YOU; Stepped WHO_ARE_YOU 0 JUndefined;
              Prompted NAME_PROMPT namePromptOptions; Sent "What is your name, human?";
              SavedUser; SavedConversation]
             {| stored_user := u;
                stored_dialogs := [PromptInst NAME_PROMPT namePromptOptions;
                                   WaterfallInst WHO_ARE_YOU 0] |}).
Proof.
  intros [Hty Hut]. unfold processActivity.
  rewrite (onTurn_message recognizeText recognizeChoice recognizeNumber) by assumption.
  unfold resumeOrBegin, dc_continue, newTurn, initialStorage, nameGiven, storedProfile.
  exec_all.
  destruct (truthy (readField (name (default emptyProfile u)))); exec_all; [|reflexivity].
  unfold greeting.
  destruct (truthy (readField (age (default emptyProfile u)))); exec_all; reflexivity.
Qed.

Lemma name_reply (u : option profile) (a : Activity) (nm : string) :
  let u' := Profile (Some (JStr nm)) (age (default emptyProfile u)) in
  plainMessage a -> recognizeText a = Some nm ->
  processActivity'
    {| stored_user := u;
       stored_dialogs := [PromptInst NAME_PROMPT namePromptOptions;
                          WaterfallInst WHO_ARE_YOU 0] |} a =
  Ok tt (Turn a true (Some u')
           [PromptInst CONFIRM_PROMPT confirmPromptOptions; WaterfallInst WHO_ARE_YOU 1]
           [Continued (PromptInst NAME_PROMPT namePromptOptions); Ended (JStr nm);
            Stepped WHO_ARE_YOU 1 (JStr nm); ProfileRead; ProfileWritten u';
            Prompted CONFIRM_PROMPT confirmPromptOptions;
            SentChoices "Do you want to give your age?" ["yes"; "no"];
            SavedUser; SavedConversation]
           {| stored_user := Some u';
              stored_dialogs := [PromptInst CONFIRM_PROMPT confirmPromptOptions;
                                 WaterfallInst WHO_ARE_YOU 1] |}).
Proof.
  intros u' [Hty Hut] Hr. unfold processActivity.
  rewrite (onTurn_message recognizeText recognizeChoice recognizeNumber) by assumption.
  unfold resumeOrBegin, dc_continue, promptContinue, newTurn. exec_all.
  rewrite Hr. exec_all. reflexivity.
Qed.

Lemma choice_reply_yes (u : option profile) (a : Activity) (r : jsval) :
  plainMessage a -> recognizeChoice ["yes"; "no"] a = Some r -> choseYes r ->
  processActivity'
    {| stored_user := u;
       stored_dialogs := [PromptInst CONFIRM_PROMPT confirmPromptOptions;
                          WaterfallInst WHO_ARE_YOU 1] |} a =
  Ok tt (Turn a true u
           [PromptInst AGE_PROMPT agePromptOptions; WaterfallInst WHO_ARE_YOU 2]
           [Continued (PromptInst CONFIRM_PROMPT confirmPromptOptions); Ended r;
            Stepped WHO_ARE_YOU 2 r; Prompted AGE_PROMPT agePromptOptions;
            Sent "What is your age?"; SavedUser; SavedConversation]
           {| stored_user := u;
              stored_dialogs := [PromptInst AGE_PROMPT agePromptOptions;
                                 WaterfallInst WHO_ARE_YOU 2] |}).
Proof.
  intros [Hty Hut] Hr (fields & -> & Hyes). unfold processActivity.
  rewrite (onTurn_message recognizeText recognizeChoice recognizeNumber) by assumption.
  unfold resumeOrBegin, dc_continue, promptContinue, newTurn. exec_all.
  rewrite Hr. exec_all. rewrite (promptForAge_test_yes _ Hyes). exec_all. reflexivity.
Qed.

Lemma choice_reply_other (u : option profile) (a : Activity) (r : jsval) :
  plainMessage a -> recognizeChoice ["yes"; "no"] a = Some r -> ~ choseYes r ->
  processActivity'
    {| stored_user := u;
       stored_dialogs := [PromptInst CONFIRM_PROMPT confirmPromptOptions;
                          WaterfallInst WHO_ARE_YOU 1] |} a =
  Ok tt (Turn a true u []
           [Continued (PromptInst CONFIRM_PROMPT confirmPromptOptions); Ended r;
            Stepped WHO_ARE_YOU 2 r; Stepped WHO_ARE_YOU 3 (JNum (numZ (-1))); ProfileRead;
            Sent "No age given."; Ended JUndefined; SavedUser; SavedConversation]
           (initialStorage u)).
Proof.
  intros [Hty Hut] Hr Hno. unfold processActivity.
  rewrite (onTurn_message recognizeText recognizeChoice recognizeNumber) by assumption.
  unfold resumeOrBegin, dc_continue, promptContinue, newTurn. exec_all.
  rewrite Hr. exec_all.
  destruct r as [| |b|n|s|fields]; exec_all; try reflexivity.
  - destruct b; exec_all; reflexivity.
  - destruct (numEq n (numZ 0)); exec_all; reflexivity.
  - destruct (s =? ""); exec_all; reflexivity.
  - rewrite promptForAge_test_other; [exec_all; reflexivity|].
    intros Hyes. apply Hno. exists fields. split; [reflexivity|exact Hyes].
Qed.

Ltac next_turn E :=
  let R := fresh "R" in
  let L := fresh "L" in
  match type of E with
  | _ ?s ?a = Ok tt ?t =>
      match goal with
      | |- context [run' s (a :: ?rest)] =>
          destruct (run_cons_ok s a rest t E) as [R L]; rewrite R, L; clear R L;
          cbn [store log]
      end
  end.

(** X8: onboarding with an age, then the greeting.  From stores without a
    given name and with an empty dialog stack, five messages of which the
    second is recognised as the name (not empty), the third as the choice
    "yes" and the fourth as an age above zero get these five replies, and
    leave the name and the age in the profile and the dialog stack empty:
    what the greeting renders is what onboarding stored. *)
Theorem onboarding_with_age_then_greeting (u0 : option profile)
    (a1 a2 a3 a4 a5 : Activity) (nm : string) (r : jsval) (v : Qc) :
  nameGiven (initialStorage u0) = false ->
  Forall plainMessage [a1; a2; a3; a4; a5] ->
  recognizeText a2 = Some nm -> nm <> "" ->
  recognizeChoice ["yes"; "no"] a3 = Some r -> choseYes r ->
  recognizeNumber a4 = Some v -> (numZ 0 < v)%Qc ->
  sent (runLog' (initialStorage u0) [a1; a2; a3; a4; a5]) =
    ["What is your name, human?"; "Do you want to give your age?"; "What is your age?";
     "I will remember that you are " +:+ toString (JNum v) +:+ " years old.";
     "Your name is " +:+ nm +:+ " and you are " +:+ toString (JNum v) +:+ " years old."] /\
  run' (initialStorage u0) [a1; a2; a3; a4; a5] =
    initialStorage (Some (Profile (Some (JStr nm)) (Some (JNum v)))).
Proof.
  intros Hng Hall Hnm Hne Hr Hyes Hv Hpos.
  inversion_clear Hall as [|? ? H1 Hall']. inversion_clear Hall' as [|? ? H2 Hall].
  inversion_clear Hall as [|? ? H3 Hall']. inversion_clear Hall' as [|? ? H4 Hall].
  inversion_clear Hall as [|? ? H5 _].
  pose proof (begin_turn u0 a1 H1) as E1. rewrite Hng in E1.
  next_turn E1.
  pose proof (name_reply u0 a2 nm H2 Hnm) as E2. cbv zeta in E2.
  next_turn E2.
  pose proof (choice_reply_yes
                (Some (Profile (Some (JStr nm)) (age (default emptyProfile u0))))
                a3 r H3 Hr Hyes) as E3.
  next_turn E3.
  destruct H4 as [Hty4 Hut4].
  pose proof (age_reply_accepted recognizeText recognizeChoice recognizeNumber
                (Some (Profile (Some (JStr nm)) (age (default emptyProfile u0))))
                agePromptOptions a4 v Hty4 Hut4 Hv (Qclt_le_weak _ _ Hpos)) as E4.
  cbv zeta in E4. simpl default in E4. simpl name in E4.
  next_turn E4.
  pose proof (begin_turn (Some (Profile (Some (JStr nm)) (Some (JNum v)))) a5 H5) as E5.
  assert (Hnm' : (nm =? "") = false) by (apply String.eqb_neq; exact Hne).
  assert (Hv' : numEq v (numZ 0) = false).
  { apply numEq_false. intros ->. exact (Qclt_not_le _ _ Hpos (Qcle_refl _)). }
  unfold nameGiven, storedProfile, greeting, initialStorage in E5. simpl in E5.
  rewrite Hnm', Hv' in E5. simpl in E5.
  next_turn E5.
  simpl. split; reflexivity.
Qed.

(** X9: onboarding without an age, then the greeting.  When the third
    message is recognised as a choice other than "yes", no age is asked:
    the replies are the two questions, "No age given." and a greeting
    without an age; the profile holds the name alone. *)
Theorem onboarding_without_age_then_greeting (u0 : option profile)
    (a1 a2 a3 a4 : Activity) (nm : string) (r : jsval) :
  nameGiven (initialStorage u0) = false ->
  age (default emptyProfile u0) = None ->
  Forall plainMessage [a1; a2; a3; a4] ->
  recognizeText a2 = Some nm -> nm <> "" ->
  recognizeChoice ["yes"; "no"] a3 = Some r -> ~ choseYes r ->
  sent (runLog' (initialStorage u0) [a1; a2; a3; a4]) =
    ["What is your name, human?"; "Do you want to give your age?"; "No age given.";
     "Your name is " +:+ nm +:+ " and you did not share your age."] /\
  run' (initialStorage u0) [a1; a2; a3; a4] =
    initialStorage (Some (Profile (Some (JStr nm)) None)).
Proof.
  intros Hng Hage Hall Hnm Hne Hr Hno.
  inversion_clear Hall as [|? ? H1 Hall']. inversion_clear Hall' as [|? ? H2 Hall].
  inversion_clear Hall as [|? ? H3 Hall']. inversion_clear Hall' as [|? ? H4 _].
  pose proof (begin_turn u0 a1 H1) as E1. rewrite Hng in E1.
  next_turn E1.
  pose proof (name_reply u0 a2 nm H2 Hnm) as E2. cbv zeta in E2. rewrite Hage in E2.
  next_turn E2.
  pose proof (choice_reply_other (Some (Profile (Some (JStr nm)) None))
                a3 r H3 Hr Hno) as E3.
  next_turn E3.
  pose proof (begin_turn (Some (Profile (Some (JStr nm)) None)) a4 H4) as E4.
  assert (Hnm' : (nm =? "") = false) by (apply String.eqb_neq; exact Hne).
  assert (Hg : nameGiven (initialStorage (Some (Profile (Some (JStr nm)) None))) = true).
  { unfold nameGiven, storedProfile. simpl. rewrite Hnm'. reflexivity. }
  rewrite Hg in E4.
  change (greeting (default emptyProfile (Some (Profile (Some (JStr nm)) None))))
    with ("Your name is " +:+ nm +:+ " and you did not share your age.") in E4.
  next_turn E4.
  simpl. split; reflexivity.
Qed.

(** X10: a cancel only clears the dialog stack.  Whatever was pending, the
    profile is kept, and the next message that is not a cancel is greeted
    when a name is given and asked for the name otherwise: an onboarding
    that was cancelled after the name keeps the name. *)
Theorem cancel_then_message (s : storage) (a1 a2 : Activity) :
  activity_type a1 = "message" -> utterance a1 = "cancel" ->
  plainMessage a2 ->
  afterTurn' s a1 = initialStorage (stored_user s) /\
  sent (runLog' s [a1; a2]) =
    [ match stored_dialogs s with
      | [] => "Nothing to cancel."
      | _ :: _ => "Ok... canceled."
      end;
      if nameGiven s then greeting (storedProfile s) else "What is your name, human?" ] /\
  stored_user (run' s [a1; a2]) = stored_user s.
Proof.
  intros Hty Hut H2.
  pose proof (onTurn_cancel_eq recognizeText recognizeChoice recognizeNumber s a1 Hty Hut)
    as E1.
  split; [unfold afterTurn; rewrite E1; reflexivity|].
  next_turn E1.
  pose proof (begin_turn (stored_user s) a2 H2) as E2.
  change (nameGiven (initialStorage (stored_user s))) with (nameGiven s) in E2.
  change (default emptyProfile (stored_user s)) with (storedProfile s) in E2.
  unfold initialStorage in E2.
  destruct (nameGiven s); next_turn E2;
    destruct (stored_dialogs s); simpl; split; reflexivity.
Qed.

(** X11: the age prompt has no limit of retries.  While it is pending,
    any number of negative replies in a row each get the one message "Your
    age can't be less than zero." and leave the stores as they are: the
    prompt stays pending and nothing is written to the profile. *)
Theorem negative_replies_keep_asking (u : option profile) (l : list Activity) :
  let s := {| stored_user := u;
              stored_dialogs := [PromptInst AGE_PROMPT agePromptOptions;
                                 WaterfallInst WHO_ARE_YOU 2] |} in
  Forall (negativeReply recognizeNumber) l ->
  run' s l = s /\
  sent (runLog' s l) = repeat "Your age can't be less than zero." (length l).
Proof.
  intros s Hall. induction Hall as [|a l [[Hty Hut] (v & Hv & Hneg)] _ IH].
  - split; reflexivity.
  - pose proof (age_reply_rejected recognizeText recognizeChoice recognizeNumber
                  u agePromptOptions a v Hty Hut Hv Hneg) as E.
    cbv zeta in E. fold s in E.
    destruct (run_cons_ok s a l _ E) as [R L]. rewrite R, L. cbn [store log].
    destruct IH as [IHr IHl]. split; [exact IHr|].
    rewrite sent_app, IHl. reflexivity.
Qed.

(** X12: once a name is given and no dialog is pending, messages that are
    not cancels are all answered by the same greeting, however many they
    are, and the stores stay as they are. *)
Theorem greeting_turns_are_idle (u : option profile) (l : list Activity) :
  nameGiven (initialStorage u) = true ->
  Forall plainMessage l ->
  run' (initialStorage u) l = initialStorage u /\
  sent (runLog' (initialStorage u) l) =
    repeat (greeting (default emptyProfile u)) (length l).
Proof.
  intros Hn Hall. induction Hall as [|a l Ha _ IH].
  - split; reflexivity.
  - pose proof (begin_turn u a Ha) as E. rewrite Hn in E.
    destruct (run_cons_ok _ a l _ E) as [R L]. rewrite R, L. cbn [store log].
    destruct IH as [IHr IHl]. split; [exact IHr|].
    rewrite sent_app, IHl. reflexivity.
Qed.

(** *** Which dialog a turn begins *)

Section TextIsNotEmpty.

(** The text prompt does not take an empty text for an answer. *)
Hypothesis recognizeText_not_empty : forall a s, recognizeText a = Some s -> s <> "".

Lemma nameNotEmpty_step (s : storage) (a : Activity) :
  pending s -> nameNotEmpty (storedProfile s) ->
  nameNotEmpty (storedProfile (afterTurn' s a)).
Proof.
  intros Hstk. destruct s as [u stk]. unfold pending, storedProfile in *. simpl in *.
  destruct (String.eqb_spec (activity_type a) "message") as [Hty|Hty].
  - destruct (String.eqb_spec (utterance a) "cancel") as [Hut|Hut].
    + unfold afterTurn.
      rewrite (onTurn_cancel_eq recognizeText recognizeChoice recognizeNumber)
        by assumption.
      auto.
    + unfold afterTurn, processActivity.
      rewrite (onTurn_message recognizeText recognizeChoice recognizeNumber)
        by assumption.
      unfold resumeOrBegin, dc_continue, promptContinue, newTurn.
      simpl stored_user. simpl stored_dialogs.
      destruct Hstk as [-> | [-> | [-> | ->]]]; run_turn; auto;
        intros Hn v Hv; simpl in Hv;
        solve [ apply Hn; exact Hv
              | injection Hv as <-; eexists; split;
                [reflexivity|eapply recognizeText_not_empty; eassumption] ].
  - unfold afterTurn, processActivity, onTurn, newTurn.
    apply String.eqb_neq in Hty. exec. rewrite Hty.
    destruct (activity_type a =? ActivityTypes_ConversationUpdate).
    + destruct (membersAdded a) as [[|m ms]|]; run_turn; auto.
    + run_turn; auto.
Qed.

Lemma nameNotEmpty_run (s : storage) (l : list Activity) :
  pending s -> nameNotEmpty (storedProfile s) -> nameNotEmpty (storedProfile (run' s l)).
Proof.
  revert s. induction l as [|a l IH]; intros s Hs Hn; simpl; [exact Hn|].
  apply IH; [apply (pending_step s a Hs)|apply nameNotEmpty_step; assumption].
Qed.

Lemma nameGiven_of_name (s : storage) :
  nameNotEmpty (storedProfile s) -> is_Some (name (storedProfile s)) -> nameGiven s = true.
Proof.
  intros Hn [v Hv]. destruct (Hn v Hv) as (x & -> & Hx).
  unfold nameGiven. rewrite Hv. simpl. apply String.eqb_neq in Hx. rewrite Hx. reflexivity.
Qed.

Lemma name_of_nameGiven (s : storage) :
  nameGiven s = true -> is_Some (name (storedProfile s)).
Proof.
  unfold nameGiven. destruct (name (storedProfile s)) as [v|]; [eauto|discriminate].
Qed.

(** A pending dialog that is continued with a message responds. *)
Lemma continue_silent (s : storage) (a : Activity) (t' : turn) :
  pending s ->
  dc_continue recognizeText recognizeChoice recognizeNumber (newTurn s a) = Ok tt t' ->
  responded t' = false ->
  stored_dialogs s = [] /\ t' = newTurn s a.
Proof.
  intros Hstk. destruct s as [u stk]. unfold pending in Hstk. simpl in Hstk.
  simpl stored_dialogs. revert t'.
  unfold dc_continue, promptContinue, newTurn. simpl stored_user. simpl stored_dialogs.
  destruct Hstk as [-> | [-> | [-> | ->]]]; run_turn;
    intros t' E Hr; try discriminate E; injection E as <-; try discriminate Hr.
  split; reflexivity.
Qed.

(** C2: from an empty profile and an empty dialog stack on, whatever the
    turns so far: on a message that is not a cancel, when continuing the
    active dialog (if any) has not responded and has left no dialog
    pending, [onTurn] begins [hello_user] if the stored profile has a name
    and [who_are_you] if it has none; and once the profile has a name,
    [who_are_you] is never begun again and the name stays. *)
Theorem onTurn_begins_by_name (u0 : option profile) (l : list Activity) :
  default emptyProfile u0 = emptyProfile ->
  let s := run' (initialStorage u0) l in
  (forall (a : Activity) (t' : turn),
     activity_type a = "message" -> utterance a <> "cancel" ->
     dc_continue recognizeText recognizeChoice recognizeNumber (newTurn s a) = Ok tt t' ->
     responded t' = false -> dialogStack t' = [] ->
     let u := default emptyProfile (user t') in
     (is_Some (name u) ->
      processActivity' s a =
      Ok tt (Turn (activity t') true (user t') []
               (log t' ++ [ProfileRead; Begun HELLO_USER;
                           Stepped HELLO_USER 0 JUndefined; ProfileRead;
                           Sent (greeting u); Ended JUndefined;
                           SavedUser; SavedConversation])
               {| stored_user := user t'; stored_dialogs := [] |})) /\
     (name u = None ->
      processActivity' s a =
      Ok tt (Turn (activity t') true (user t')
               [PromptInst NAME_PROMPT namePromptOptions; WaterfallInst WHO_ARE_YOU 0]
               (log t' ++ [ProfileRead; Begun WHO_ARE_YOU;
                           Stepped WHO_ARE_YOU 0 JUndefined;
                           Prompted NAME_PROMPT namePromptOptions;
                           Sent "What is your name, human?";
                           SavedUser; SavedConversation])
               {| stored_user := user t';
                  stored_dialogs := [PromptInst NAME_PROMPT namePromptOptions;
                                     WaterfallInst WHO_ARE_YOU 0] |}))) /\
  (is_Some (name (storedProfile s)) ->
   forall l2 : list Activity,
     is_Some (name (storedProfile (run' s l2))) /\
     ~ In (Begun WHO_ARE_YOU) (runLog' s l2)).
Proof.
  intros Hu0 s.
  assert (Hp : pending s) by (apply pending_run, pending_initial).
  assert (Hn : nameNotEmpty (storedProfile s)).
  { apply nameNotEmpty_run; [apply pending_initial|].
    unfold storedProfile. simpl. rewrite Hu0. intros v Hv. discriminate Hv. }
  assert (Hb : betweenTurns s) by (apply betweenTurns_run, betweenTurns_initial).
  clearbody s. split.
  - intros a t' Hty Hut Hc Hr Hstk u.
    destruct (continue_silent s a t' Hp Hc Hr) as [Hempty ->].
    subst u. destruct s as [us stk]. simpl in Hempty. subst stk.
    unfold newTurn. simpl.
    pose proof (begin_turn us a (conj Hty Hut)) as E. unfold initialStorage in E.
    split; intros Hname.
    + rewrite (nameGiven_of_name _ Hn Hname) in E. exact E.
    + assert (Hg : nameGiven {| stored_user := us; stored_dialogs := [] |} = false).
      { unfold nameGiven, storedProfile. simpl. rewrite Hname. reflexivity. }
      rewrite Hg in E. exact E.
  - intros Hname l2.
    destruct (nameGiven_run recognizeText recognizeChoice recognizeNumber s l2 Hb)
      as [Hg Hlog].
    + apply nameGiven_of_name; assumption.
    + split; [apply name_of_nameGiven; exact Hg|exact Hlog].
Qed.

End TextIsNotEmpty.

End MoreTurnProperties.

End Runtime.

(** ** Runs on concrete replies *)

Example onboarding_without_age :
  sent (runLog sampleNumberToString sampleText sampleChoice sampleNumber (initialStorage None)
          [message "hi"; message "Ada"; message "no"])
  = ["What is your name, human?"; "Do you want to give your age?"; "No age given."] /\
  run sampleNumberToString sampleText sampleChoice sampleNumber (initialStorage None)
      [message "hi"; message "Ada"; message "no"]
  = {| stored_user := Some (Profile (Some (JStr "Ada")) None); stored_dialogs := [] |}.
Proof. split; reflexivity. Qed.

Example greeting_of_a_known_user :
  sent (runLog sampleNumberToString sampleText sampleChoice sampleNumber
          (initialStorage (Some (Profile (Some (JStr "Grace")) (Some (JNum (numZ 34))))))
          [message "hi"])
  = ["Your name is Grace and you are 34 years old."].
Proof. reflexivity. Qed.

(** Age 0 is accepted by the validator and stored by [captureAge]; the
    greeting that follows says that no age was shared. *)
Example age_zero_end_to_end :
  sent (runLog sampleNumberToString sampleText sampleChoice sampleNumber (initialStorage None)
          [message "hi"; message "Ada"; message "yes"; message "0"; message "hi"])
  = ["What is your name, human?"; "Do you want to give your age?"; "What is your age?";
     "I will remember that you are 0 years old.";
     "Your name is Ada and you did not share your age."] /\
  run sampleNumberToString sampleText sampleChoice sampleNumber (initialStorage None)
      [message "hi"; message "Ada"; message "yes"; message "0"; message "hi"]
  = {| stored_user := Some (Profile (Some (JStr "Ada")) (Some (JNum (numZ 0))));
       stored_dialogs := [] |}.
Proof. split; reflexivity. Qed.

Lemma sampleText_not_empty (a : Activity) (s : string) :
  sampleText a = Some s -> s <> "".
Proof.
  unfold sampleText. destruct (text a) as [x|]; [|discriminate].
  destruct (String.eqb_spec x "") as [|Hx]; [discriminate|].
  intros E. injection E as <-. exact Hx.
Qed.

Lemma onTurn_begins_by_name_witness :
  processActivity sampleNumberToString sampleText sampleChoice sampleNumber
    (run sampleNumberToString sampleText sampleChoice sampleNumber (initialStorage None)
       [message "hi"; message "Grace"; message "yes"; message "34"])
    (message "hi")
  = Ok tt (Turn (message "hi") true
             (Some (Profile (Some (JStr "Grace")) (Some (JNum (numZ 34))))) []
             [ProfileRead; Begun HELLO_USER; Stepped HELLO_USER 0 JUndefined; ProfileRead;
              Sent "Your name is Grace and you are 34 years old."; Ended JUndefined;
              SavedUser; SavedConversation]
             (initialStorage (Some (Profile (Some (JStr "Grace")) (Some (JNum (numZ 34))))))).
Proof.
  pose proof (onTurn_begins_by_name sampleNumberToString sampleText sampleChoice
                sampleNumber sampleText_not_empty None
                [message "hi"; message "Grace"; message "yes"; message "34"]
                eq_refl) as H.
  cbv zeta in H.
  assert (R : run sampleNumberToString sampleText sampleChoice sampleNumber
                (initialStorage None)
                [message "hi"; message "Grace"; message "yes"; message "34"]
              = initialStorage (Some (Profile (Some (JStr "Grace")) (Some (JNum (numZ 34))))))
    by reflexivity.
  rewrite R in *.
  apply (proj1 (proj1 H (message "hi")
                  (newTurn (initialStorage
                              (Some (Profile (Some (JStr "Grace")) (Some (JNum (numZ 34))))))
                           (message "hi"))
                  eq_refl ltac:(intros E; discriminate E) eq_refl eq_refl eq_refl)).
  exists (JStr "Grace"). reflexivity.
Defined.

Lemma onTurn_cancel_witness :
  processActivity sampleNumberToString sampleText sampleChoice sampleNumber
    {| stored_user := None;
       stored_dialogs := [PromptInst AGE_PROMPT agePromptOptions;
                          WaterfallInst WHO_ARE_YOU 2] |}
    (message "  CANCEL ")
  = Ok tt (Turn (message "  CANCEL ") true None []
             [CancelledAll; Sent "Ok... canceled."; SavedUser; SavedConversation]
             {| stored_user := None; stored_dialogs := [] |}).
Proof.
  apply (proj1 (onTurn_cancel sampleNumberToString sampleText sampleChoice sampleNumber
                  {| stored_user := None;
                     stored_dialogs := [PromptInst AGE_PROMPT agePromptOptions;
                                        WaterfallInst WHO_ARE_YOU 2] |}
                  (message "  CANCEL ") eq_refl eq_refl)).
Defined.

Lemma promptForAge_spec_witness :
  promptForAge (dialogContext sampleNumberToString [])
    {| result := JObj (FCons "value" (JStr "yes") FNil); next := fun _ => ret tt |}
    (newTurn (initialStorage None) (message "yes"))
  = Ok tt (Turn (message "yes") true None [PromptInst AGE_PROMPT agePromptOptions]
             [Prompted AGE_PROMPT agePromptOptions; Sent "What is your age?"]
             (initialStorage None)).
Proof.
  apply (proj1 (promptForAge_spec sampleNumberToString (dialogContext sampleNumberToString [])
                  (JObj (FCons "value" (JStr "yes") FNil)) (fun _ => ret tt)
                  (newTurn (initialStorage None) (message "yes")))
           (FCons "value" (JStr "yes") FNil)); reflexivity.
Defined.

Lemma ageValidator_spec_witness :
  sent (runLog sampleNumberToString sampleText sampleChoice sampleNumber
          {| stored_user := Some (Profile (Some (JStr "Ada")) None);
             stored_dialogs := [PromptInst AGE_PROMPT agePromptOptions;
                                WaterfallInst WHO_ARE_YOU 2] |}
          [message "-0.5"; message "7"])
  = ["Your age can't be less than zero."; "I will remember that you are 7 years old."].
Proof.
  apply (proj2 (proj2 (ageValidator_spec sampleNumberToString sampleText sampleChoice
                         sampleNumber))
           (Some (Profile (Some (JStr "Ada")) None)) (message "-0.5") (message "7")
           (Q2Qc (-1 # 2)) (numZ 7));
    try reflexivity; intros H; discriminate H.
Defined.

Lemma captureAge_spec_witness :
  captureAge sampleNumberToString (dialogContext sampleNumberToString []) {| result := JNum (numZ 34); next := fun _ => ret tt |}
    (newTurn (initialStorage (Some (Profile (Some (JStr "Grace")) None))) (message "34"))
  = Ok tt (Turn (message "34") true
             (Some (Profile (Some (JStr "Grace")) (Some (JNum (numZ 34))))) []
             [ProfileRead; ProfileWritten (Profile (Some (JStr "Grace")) (Some (JNum (numZ 34))));
              Sent "I will remember that you are 34 years old."; Ended JUndefined]
             (initialStorage (Some (Profile (Some (JStr "Grace")) None)))).
Proof.
  apply (proj1 (captureAge_spec sampleNumberToString [] (JNum (numZ 34)) (fun _ => ret tt)
                  (newTurn (initialStorage (Some (Profile (Some (JStr "Grace")) None)))
                           (message "34")))).
  intros H. discriminate H.
Defined.

Lemma age_only_with_name_witness :
  is_Some (name (storedProfile
                   (run sampleNumberToString sampleText sampleChoice sampleNumber (initialStorage None)
                        [message "hi"; message "Ada"; message "yes"; message "34"]))).
Proof.
  apply (proj1 (age_only_with_name sampleNumberToString sampleText sampleChoice sampleNumber None
                  [message "hi"; message "Ada"; message "yes"; message "34"]
                  emptyProfile eq_refl)).
  exists (JNum (numZ 34)). reflexivity.
Defined.

Lemma onTurn_message_without_text_witness :
  exists t',
    processActivity sampleNumberToString sampleText sampleChoice sampleNumber (initialStorage None)
      {| activity_type := "message"; text := None; membersAdded := None |}
    = Ok tt t'.
Proof.
  apply (onTurn_message_without_text sampleNumberToString sampleText sampleChoice sampleNumber
           (initialStorage None)
           {| activity_type := "message"; text := None; membersAdded := None |}).
  - reflexivity.
  - left. reflexivity.
Defined.

(** Any casing and surrounding white space normalise to "cancel"; a missing
    text normalises to the empty string. *)
Example utterance_of_cancel :
  utterance (message "CANCEL") = "cancel" /\
  utterance (message "  Cancel  ") = "cancel" /\
  utterance (message "cancel") = "cancel" /\
  utterance (message "cancel that") = "cancel that" /\
  utterance {| activity_type := "message"; text := None; membersAdded := None |} = "".
Proof. repeat split; reflexivity. Qed.

(** The match on "yes" is on the value and case sensitive: "Yes" skips the
    age prompt. *)
Example choice_Yes_skips_the_age :
  sent (log (finalTurn
               (resumeDialog sampleNumberToString [WaterfallInst WHO_ARE_YOU 1]
                  (JObj (FCons "value" (JStr "Yes") FNil))
                  (newTurn (initialStorage None) (message "Yes")))))
  = ["No age given."].
Proof. reflexivity. Qed.

(** ** The further properties on concrete replies *)

Lemma stored_profile_well_typed_witness :
  exists n, JNum (numZ 34) = JNum n /\ (numZ 0 <= n)%Qc /\
            JNum (numZ 34) <> JNum (numZ (-1)).
Proof.
  apply (proj2 (stored_profile_well_typed sampleNumberToString sampleText sampleChoice sampleNumber None
                  [message "hi"; message "Ada"; message "yes"; message "34"]
                  ltac:(split; intros v H; discriminate H))
           (JNum (numZ 34)) eq_refl).
Defined.

Lemma message_turn_sends_one_text_witness :
  length (sent (log (finalTurn
    (processActivity sampleNumberToString sampleText sampleChoice sampleNumber
       (run sampleNumberToString sampleText sampleChoice sampleNumber (initialStorage None) [message "hi"])
       (message "Ada"))))) = 1.
Proof.
  apply (message_turn_sends_one_text sampleNumberToString sampleText sampleChoice sampleNumber None
           [message "hi"] (message "Ada")).
  reflexivity.
Defined.

Lemma profile_fields_are_kept_witness :
  is_Some (name (storedProfile
                   (run sampleNumberToString sampleText sampleChoice sampleNumber (initialStorage None)
                        ([message "hi"; message "Ada"] ++ [message "cancel"])))).
Proof.
  apply (proj1 (profile_fields_are_kept sampleNumberToString sampleText sampleChoice sampleNumber None
                  [message "hi"; message "Ada"] [message "cancel"])).
  exists (JStr "Ada"). reflexivity.
Defined.

Lemma onTurn_throws_only_without_members_witness :
  processActivity sampleNumberToString sampleText sampleChoice sampleNumber (initialStorage None)
    {| activity_type := "conversationUpdate"; text := None; membersAdded := Some [] |}
  = Throw TypeError
      (newTurn (initialStorage None)
         {| activity_type := "conversationUpdate"; text := None;
            membersAdded := Some [] |}).
Proof.
  apply (proj1 (onTurn_throws_only_without_members sampleNumberToString sampleText sampleChoice sampleNumber
                  (initialStorage None)
                  {| activity_type := "conversationUpdate"; text := None;
                     membersAdded := Some [] |})).
  split; [reflexivity|right; reflexivity].
Defined.

Lemma onTurn_welcome_witness :
  processActivity sampleNumberToString sampleText sampleChoice sampleNumber (initialStorage None)
    {| activity_type := "conversationUpdate"; text := None;
       membersAdded := Some [ {| account_name := Some "User" |};
                              {| account_name := Some "Bot" |} ] |}
  = Ok tt (Turn {| activity_type := "conversationUpdate"; text := None;
                   membersAdded := Some [ {| account_name := Some "User" |};
                                          {| account_name := Some "Bot" |} ] |}
             true None [] [Sent welcomeText; SavedUser; SavedConversation]
             (initialStorage None)).
Proof.
  apply (proj1 (onTurn_welcome sampleNumberToString sampleText sampleChoice sampleNumber (initialStorage None)
                  {| activity_type := "conversationUpdate"; text := None;
                     membersAdded := Some [ {| account_name := Some "User" |};
                                            {| account_name := Some "Bot" |} ] |}
                  {| account_name := Some "User" |} [ {| account_name := Some "Bot" |} ]
                  eq_refl eq_refl)).
  intros H. discriminate H.
Defined.

Lemma onTurn_not_message_keeps_stores_witness :
  afterTurn sampleNumberToString sampleText sampleChoice sampleNumber
    {| stored_user := Some (Profile (Some (JStr "Ada")) None);
       stored_dialogs := [PromptInst CONFIRM_PROMPT confirmPromptOptions;
                          WaterfallInst WHO_ARE_YOU 1] |}
    {| activity_type := "typing"; text := None; membersAdded := None |}
  = {| stored_user := Some (Profile (Some (JStr "Ada")) None);
       stored_dialogs := [PromptInst CONFIRM_PROMPT confirmPromptOptions;
                          WaterfallInst WHO_ARE_YOU 1] |}.
Proof.
  apply (proj1 (onTurn_not_message_keeps_stores sampleNumberToString sampleText sampleChoice sampleNumber
                  {| stored_user := Some (Profile (Some (JStr "Ada")) None);
                     stored_dialogs := [PromptInst CONFIRM_PROMPT confirmPromptOptions;
                                        WaterfallInst WHO_ARE_YOU 1] |}
                  {| activity_type := "typing"; text := None; membersAdded := None |}
                  ltac:(intros H; discriminate H))).
Defined.

Lemma onboarding_with_age_then_greeting_witness :
  sent (runLog sampleNumberToString sampleText sampleChoice sampleNumber (initialStorage None)
          [message "hi"; message "Ada"; message "yes"; message "34"; message "hello"])
  = ["What is your name, human?"; "Do you want to give your age?"; "What is your age?";
     "I will remember that you are 34 years old.";
     "Your name is Ada and you are 34 years old."].
Proof.
  apply (proj1 (onboarding_with_age_then_greeting sampleNumberToString sampleText sampleChoice sampleNumber
                  None (message "hi") (message "Ada") (message "yes") (message "34")
                  (message "hello") "Ada" (JObj (FCons "value" (JStr "yes") FNil))
                  (numZ 34)
                  eq_refl
                  ltac:(repeat constructor; intros H; discriminate H)
                  eq_refl ltac:(intros H; discriminate H)
                  eq_refl
                  ltac:(eexists; split; reflexivity)
                  eq_refl ltac:(reflexivity))).
Defined.

Lemma onboarding_without_age_then_greeting_witness :
  sent (runLog sampleNumberToString sampleText sampleChoice sampleNumber (initialStorage None)
          [message "hi"; message "Ada"; message "no"; message "hello"])
  = ["What is your name, human?"; "Do you want to give your age?"; "No age given.";
     "Your name is Ada and you did not share your age."].
Proof.
  apply (proj1 (onboarding_without_age_then_greeting sampleNumberToString sampleText sampleChoice sampleNumber
                  None (message "hi") (message "Ada") (message "no") (message "hello")
                  "Ada" (JObj (FCons "value" (JStr "no") FNil))
                  eq_refl eq_refl
                  ltac:(repeat constructor; intros H; discriminate H)
                  eq_refl ltac:(intros H; discriminate H)
                  eq_refl
                  ltac:(intros (fields & E & Hv); injection E as <-; discriminate Hv))).
Defined.

Lemma cancel_then_message_witness :
  sent (runLog sampleNumberToString sampleText sampleChoice sampleNumber
          {| stored_user := Some (Profile (Some (JStr "Ada")) None);
             stored_dialogs := [PromptInst CONFIRM_PROMPT confirmPromptOptions;
                                WaterfallInst WHO_ARE_YOU 1] |}
          [message " Cancel"; message "hi"])
  = ["Ok... canceled."; "Your name is Ada and you did not share your age."].
Proof.
  apply (proj1 (proj2 (cancel_then_message sampleNumberToString sampleText sampleChoice sampleNumber
                  {| stored_user := Some (Profile (Some (JStr "Ada")) None);
                     stored_dialogs := [PromptInst CONFIRM_PROMPT confirmPromptOptions;
                                        WaterfallInst WHO_ARE_YOU 1] |}
                  (message " Cancel") (message "hi") eq_refl eq_refl
                  ltac:(split; [reflexivity|intros H; discriminate H])))).
Defined.

Lemma negative_replies_keep_asking_witness :
  sent (runLog sampleNumberToString sampleText sampleChoice sampleNumber
          {| stored_user := Some (Profile (Some (JStr "Ada")) None);
             stored_dialogs := [PromptInst AGE_PROMPT agePromptOptions;
                                WaterfallInst WHO_ARE_YOU 2] |}
          [message "-5"; message "-5"])
  = ["Your age can't be less than zero."; "Your age can't be less than zero."].
Proof.
  apply (proj2 (negative_replies_keep_asking sampleNumberToString sampleText sampleChoice sampleNumber
                  (Some (Profile (Some (JStr "Ada")) None))
                  [message "-5"; message "-5"]
                  ltac:(repeat (apply Forall_cons_2;
                                  [split;
                                   [split; [reflexivity|intros H; discriminate H]
                                   |exists (numZ (-5)); split; reflexivity]|]);
                        apply Forall_nil_2))).
Defined.

Lemma greeting_turns_are_idle_witness :
  sent (runLog sampleNumberToString sampleText sampleChoice sampleNumber
          (initialStorage (Some (Profile (Some (JStr "Grace")) (Some (JNum (numZ 34))))))
          [message "hi"; message "hello"])
  = ["Your name is Grace and you are 34 years old.";
     "Your name is Grace and you are 34 years old."].
Proof.
  apply (proj2 (greeting_turns_are_idle sampleNumberToString sampleText sampleChoice sampleNumber
                  (Some (Profile (Some (JStr "Grace")) (Some (JNum (numZ 34)))))
                  [message "hi"; message "hello"] eq_refl
                  ltac:(repeat constructor; intros H; discriminate H))).
Defined.

(** White space beyond ASCII is trimmed as well: a cancel wrapped in
    U+00A0, U+3000 or U+FEFF is a cancel. *)
Example utterance_trims_unicode_white_space :
  utterance (message (nbsp +:+ "Cancel" +:+ nbsp)) = "cancel" /\
  utterance (message (ideographicSpace +:+ " CANCEL" +:+ byteOrderMark)) = "cancel" /\
  utterance (message ("can" +:+ nbsp +:+ "cel")) = "can" +:+ nbsp +:+ "cel".
Proof. repeat split; reflexivity. Qed.

Example cancel_in_unicode_white_space :
  sent (runLog sampleNumberToString sampleText sampleChoice sampleNumber
          (initialStorage None)
          [message "hi"; message (nbsp +:+ "cancel" +:+ nbsp); message (nbsp +:+ "Cancel")])
  = ["What is your name, human?"; "Ok... canceled."; "Nothing to cancel."].
Proof. reflexivity. Qed.

(** Fractions go through the validator like integers: -0.5 is rejected,
    34.5 is accepted and stored. *)
Example fractional_ages :
  sent (log (finalTurn
    (processActivity sampleNumberToString sampleText sampleChoice sampleNumber
       {| stored_user := Some (Profile (Some (JStr "Ada")) None);
          stored_dialogs := [PromptInst AGE_PROMPT agePromptOptions;
                             WaterfallInst WHO_ARE_YOU 2] |}
       (message "-0.5"))))
  = ["Your age can't be less than zero."] /\
  run sampleNumberToString sampleText sampleChoice sampleNumber
    {| stored_user := Some (Profile (Some (JStr "Ada")) None);
       stored_dialogs := [PromptInst AGE_PROMPT agePromptOptions;
                          WaterfallInst WHO_ARE_YOU 2] |}
    [message "-0.5"; message "34.5"]
  = initialStorage (Some (Profile (Some (JStr "Ada")) (Some (JNum (Q2Qc (69 # 2)))))).
Proof. split; reflexivity. Qed.
